(** * backgroundContext.tsx: the cached background image of the client UI

    A shallow embedding of [src/lib/backgroundContext.tsx]: the expiring
    cache record kept in [localStorage], the image probe, the
    initialisation effect of [BackgroundProvider] and its two commands
    ([setLoaded], [refreshBackground]), followed by the properties of the
    specification that were checked against it.

    Conventions of the model.
    - JavaScript values that reach the module from [JSON.parse] are kept
      dynamically typed ([jsval]); TypeScript annotations are erased at run
      time, so [data.url] may be any JSON value.
    - Numbers are epoch milliseconds: exact integers.  The only non-integer
      number the code can compute is [NaN] (from subtracting a non-number),
      so arithmetic results are [option Z] with [None] for [NaN].
    - Built-ins of the platform that the module calls but does not define
      ([JSON.parse], [JSON.stringify], [ToNumber] on non-primitives) are the
      fields of the class [Platform]; a concrete, executable instance
      ([Json.platform]) is given for evaluation.
    - The module is single-threaded and event driven.  Every asynchronous
      function is split at its [await]s into continuations ([Pc]); one
      [Event] runs one handler of the event loop to completion.
    - [trace] is instrumentation: it records, in order, the externally
      visible effects (URL generated, image load started, storage written
      or deleted, error logged). *)

From stdpp Require Import base option list strings gmap fin_maps pretty.
From Stdlib Require Import ZArith Lia Ascii.

Set Warnings "-register-all".

Local Open Scope string_scope.
Local Open Scope Z_scope.

(** ** JavaScript values *)

Inductive jsval : Type :=
  | JUndefined
  | JNull
  | JBool (b : bool)
  | JNum (z : Z)
  | JStr (s : string)
  | JArr (items : list jsval)
  | JObj (fields : list (string * jsval)).

(** [ToBoolean]: what [if (v)], [!v] and [v || w] test. *)
Definition truthy (v : jsval) : bool :=
  match v with
  | JUndefined | JNull => false
  | JBool b => b
  | JNum z => negb (z =? 0)
  | JStr s => negb (String.eqb s "")
  | JArr _ | JObj _ => true
  end.

(** [a || b]. *)
Definition js_or (a b : jsval) : jsval := if truthy a then a else b.

(** Own-property lookup in the field list built by [JSON.parse]: a later
    duplicate of a key overrides an earlier one. *)
Fixpoint own_prop (fields : list (string * jsval)) (k : string) : option jsval :=
  match fields with
  | [] => None
  | (k', v) :: rest =>
      match own_prop rest k with
      | Some v' => Some v'
      | None => if String.eqb k' k then Some v else None
      end
  end.

(** [v.k] for the two keys the module reads, [url] and [timestamp], neither
    of which is defined on a built-in prototype.  [None] is the [TypeError]
    of reading a property of [null] or [undefined]. *)
Definition get_prop (v : jsval) (k : string) : option jsval :=
  match v with
  | JUndefined | JNull => None
  | JObj fields => Some (default JUndefined (own_prop fields k))
  | JBool _ | JNum _ | JStr _ | JArr _ => Some JUndefined
  end.

(** ** Platform built-ins *)

Class Platform : Type := {
  (** [JSON.parse]; [None] is a thrown [SyntaxError]. *)
  JSON_parse : string -> option jsval;
  (** [JSON.stringify]. *)
  JSON_stringify : jsval -> string;
  (** [ToNumber] on strings, arrays and objects: [None] when the coercion
      throws, [Some None] when it yields [NaN]. *)
  ToNumber_ext : jsval -> option (option Z);
  (** The empty text is not JSON. *)
  JSON_parse_empty : JSON_parse "" = None
}.

(** [ToNumber]. *)
Definition to_number {P : Platform} (v : jsval) : option (option Z) :=
  match v with
  | JUndefined => Some None
  | JNull => Some (Some 0)
  | JBool b => Some (Some (if b then 1 else 0))
  | JNum z => Some (Some z)
  | JStr _ | JArr _ | JObj _ => ToNumber_ext v
  end.

(** [a - b] and [a > b] on numbers, [None] being [NaN]. *)
Definition num_sub (a b : option Z) : option Z :=
  match a, b with
  | Some x, Some y => Some (x - y)
  | _, _ => None
  end.

Definition num_gt (a b : option Z) : bool :=
  match a, b with
  | Some x, Some y => y <? x
  | _, _ => false
  end.

(** ** Constants *)

Definition BG_CACHE_KEY : string := "app_background_cache".
Definition BG_EXPIRE_TIME : Z := 24 * 60 * 60 * 1000.
Definition BG_LOAD_TIMEOUT : Z := 10000.

(** The object literal [{ url, timestamp }] of [setCachedBackground]. *)
Definition cache_record (url : string) (timestamp : Z) : jsval :=
  JObj [("url", JStr url); ("timestamp", JNum timestamp)].

(** ** The process state *)

(** Externally visible effects, in the order they happen. *)
Inductive Effect : Type :=
  | EGenerated (url : string)        (* fetchNewBackground produced a candidate *)
  | EImageLoad (src : jsval)         (* img.src = src: a network load starts *)
  | ESetItem (key value : string)    (* localStorage.setItem succeeded *)
  | ERemoveItem (key : string)       (* localStorage.removeItem *)
  | EConsoleError.                   (* console.error *)

(** The promise returned by [preloadImage]. *)
Inductive Promise : Type :=
  | Pending
  | Resolved (b : bool)
  | Rejected.

(** One call of [preloadImage]: the [Image], the timer and the promise. *)
Record Probe : Type := {
  img_src : jsval;
  timer : option Z;        (* [Some t]: armed, fires no earlier than [t] *)
  promise : Promise
}.

(** Where an asynchronous function is suspended. *)
Inductive Pc : Type :=
  | AwaitCached (cached : jsval)     (* line 110: await preloadImage(cached) *)
  | AwaitNew (newUrl : string)       (* line 122: await preloadImage(newUrl) *)
  | AwaitRefresh (newUrl : string)   (* line 146: await preloadImage(newUrl) *)
  | InitDone (finalUrl : jsval)      (* initBackground ended; its local finalUrl *)
  | RefreshDone (isValid : bool).    (* refreshBackground ended *)

Record Task : Type := {
  owner : nat;             (* the provider instance whose closure runs *)
  pc : Pc;
  probe : Probe
}.

(** One mounted [BackgroundProvider]: its two [useState] cells and its
    [useRef]. *)
Record Provider : Type := {
  backgroundUrl : jsval;
  isLoaded : bool;
  isInitializing : bool
}.

Record World : Type := {
  clock : Z;                               (* Date.now() *)
  has_window : bool;                       (* typeof window !== 'undefined' *)
  storage : gmap string string;            (* localStorage *)
  storage_full : bool;                     (* setItem throws (quota) *)
  globalBackgroundUrl : jsval;             (* string | null *)
  globalIsLoaded : bool;
  providers : list Provider;
  tasks : list Task;
  trace : list Effect
}.

Definition set_clock (t : Z) (w : World) : World :=
  {| clock := t; has_window := has_window w; storage := storage w;
     storage_full := storage_full w;
     globalBackgroundUrl := globalBackgroundUrl w;
     globalIsLoaded := globalIsLoaded w; providers := providers w;
     tasks := tasks w; trace := trace w |}.

Definition set_storage (m : gmap string string) (w : World) : World :=
  {| clock := clock w; has_window := has_window w; storage := m;
     storage_full := storage_full w;
     globalBackgroundUrl := globalBackgroundUrl w;
     globalIsLoaded := globalIsLoaded w; providers := providers w;
     tasks := tasks w; trace := trace w |}.

Definition set_globalBackgroundUrl (v : jsval) (w : World) : World :=
  {| clock := clock w; has_window := has_window w; storage := storage w;
     storage_full := storage_full w;
     globalBackgroundUrl := v;
     globalIsLoaded := globalIsLoaded w; providers := providers w;
     tasks := tasks w; trace := trace w |}.

Definition set_globalIsLoaded (b : bool) (w : World) : World :=
  {| clock := clock w; has_window := has_window w; storage := storage w;
     storage_full := storage_full w;
     globalBackgroundUrl := globalBackgroundUrl w;
     globalIsLoaded := b; providers := providers w;
     tasks := tasks w; trace := trace w |}.

Definition set_providers (ps : list Provider) (w : World) : World :=
  {| clock := clock w; has_window := has_window w; storage := storage w;
     storage_full := storage_full w;
     globalBackgroundUrl := globalBackgroundUrl w;
     globalIsLoaded := globalIsLoaded w; providers := ps;
     tasks := tasks w; trace := trace w |}.

Definition set_tasks (ts : list Task) (w : World) : World :=
  {| clock := clock w; has_window := has_window w; storage := storage w;
     storage_full := storage_full w;
     globalBackgroundUrl := globalBackgroundUrl w;
     globalIsLoaded := globalIsLoaded w; providers := providers w;
     tasks := ts; trace := trace w |}.

Definition log (e : Effect) (w : World) : World :=
  {| clock := clock w; has_window := has_window w; storage := storage w;
     storage_full := storage_full w;
     globalBackgroundUrl := globalBackgroundUrl w;
     globalIsLoaded := globalIsLoaded w; providers := providers w;
     tasks := tasks w; trace := trace w ++ [e] |}.

(** ** localStorage *)

Definition localStorage_getItem (key : string) (w : World) : option string :=
  storage w !! key.

Definition localStorage_removeItem (key : string) (w : World) : World :=
  log (ERemoveItem key) (set_storage (delete key (storage w)) w).

(** [None]: [setItem] threw. *)
Definition localStorage_setItem (key value : string) (w : World) : option World :=
  if storage_full w then None
  else Some (log (ESetItem key value) (set_storage (<[key := value]> (storage w)) w)).

(** ** CacheStore: getCachedBackground / setCachedBackground *)

(** The body of the [try] block of [getCachedBackground]; [None] is a thrown
    exception.  Nothing is mutated before a point that can throw. *)
Definition getCachedBackground_try {P : Platform} (w : World) : option (jsval * World) :=
  match localStorage_getItem BG_CACHE_KEY w with
  | None => Some (JNull, w)
  | Some cached =>
      if String.eqb cached "" then Some (JNull, w)
      else
        data ← JSON_parse cached;
        let now := clock w in
        timestamp ← get_prop data "timestamp";
        ts ← to_number timestamp;
        if num_gt (num_sub (Some now) ts) (Some BG_EXPIRE_TIME) then
          Some (JNull, localStorage_removeItem BG_CACHE_KEY w)
        else
          url ← get_prop data "url";
          Some (url, w)
  end.

Definition getCachedBackground {P : Platform} (w : World) : jsval * World :=
  if negb (has_window w) then (JNull, w)
  else
    match getCachedBackground_try w with
    | Some r => r
    | None => (JNull, w)
    end.

Definition setCachedBackground {P : Platform} (url : string) (w : World) : World :=
  if negb (has_window w) then w
  else
    let data := cache_record url (clock w) in
    match localStorage_setItem BG_CACHE_KEY (JSON_stringify data) w with
    | Some w' => w'
    | None => log EConsoleError w
    end.

(** [`https://loliapi.com/acg/?${Date.now()}`] *)
Definition fetchNewBackground_url (now : Z) : string :=
  "https://loliapi.com/acg/?" +:+ pretty now.

Definition fetchNewBackground (w : World) : string * World :=
  let url := fetchNewBackground_url (clock w) in
  (url, log (EGenerated url) w).

(** ** ImageProbe: preloadImage *)

(** The executor of the promise, run synchronously by [preloadImage(url)]:
    arm the timer, attach the handlers, start the load. *)
Definition preloadImage (url : jsval) (w : World) : Probe * World :=
  ({| img_src := url;
      timer := Some (clock w + BG_LOAD_TIMEOUT);
      promise := Pending |},
   log (EImageLoad url) w).

(** [resolve(b)]: only the first settlement of a promise counts. *)
Definition resolve (b : bool) (pr : Promise) : Promise :=
  match pr with
  | Pending => Resolved b
  | Resolved _ | Rejected => pr
  end.

(** What can happen to a probe: the image fires [load] or [error], or the
    timer fires. *)
Inductive ImgEvent : Type := OnLoad | OnError | OnTimeout.

(** The three callbacks of [preloadImage].  [None]: the event cannot occur
    (a timer that was cleared, has fired, or is not yet due). *)
Definition preloadImage_handler (now : Z) (e : ImgEvent) (p : Probe) : option Probe :=
  match e with
  | OnLoad =>
      Some {| img_src := img_src p; timer := None;
              promise := resolve true (promise p) |}
  | OnError =>
      Some {| img_src := img_src p; timer := None;
              promise := resolve false (promise p) |}
  | OnTimeout =>
      match timer p with
      | Some due =>
          if due <=? now then
            Some {| img_src := JStr ""; timer := None;
                    promise := resolve false (promise p) |}
          else None
      | None => None
      end
  end.

(** A probe driven by a sequence of events, each at its own time. *)
Fixpoint preloadImage_run (es : list (Z * ImgEvent)) (p : Probe) : option Probe :=
  match es with
  | [] => Some p
  | (now, e) :: rest => p' ← preloadImage_handler now e p; preloadImage_run rest p'
  end.

(** The verdict of a probe whose first callback is [e]. *)
Definition verdict (e : ImgEvent) : bool :=
  match e with
  | OnLoad => true
  | OnError | OnTimeout => false
  end.

(** The settled probe left behind by the first callback [e]. *)
Definition settled (e : ImgEvent) (p : Probe) : Probe :=
  {| img_src := match e with OnTimeout => JStr "" | _ => img_src p end;
     timer := None;
     promise := Resolved (verdict e) |}.

(** ** BackgroundResolver and SharedState: BackgroundProvider *)

(** [setBackgroundUrl(v)] and [setIsLoaded(b)] of provider instance [i]. *)
Definition setBackgroundUrl (i : nat) (v : jsval) (w : World) : World :=
  set_providers
    (alter (fun p => {| backgroundUrl := v; isLoaded := isLoaded p;
                        isInitializing := isInitializing p |}) i (providers w)) w.

Definition setIsLoaded (i : nat) (b : bool) (w : World) : World :=
  set_providers
    (alter (fun p => {| backgroundUrl := backgroundUrl p; isLoaded := b;
                        isInitializing := isInitializing p |}) i (providers w)) w.

(** [isInitializing.current = b] of provider instance [i]. *)
Definition set_isInitializing (i : nat) (b : bool) (w : World) : World :=
  set_providers
    (alter (fun p => {| backgroundUrl := backgroundUrl p; isLoaded := isLoaded p;
                        isInitializing := b |}) i (providers w)) w.

(** Lines 120-122: no final URL yet, so generate a candidate and probe it. *)
Definition initBackground_fallback (i : nat) (w : World) : Task * World :=
  let '(newUrl, w1) := fetchNewBackground w in
  let '(p, w2) := preloadImage (JStr newUrl) w1 in
  ({| owner := i; pc := AwaitNew newUrl; probe := p |}, w2).

(** Lines 129-133: publish [finalUrl] when it is truthy. *)
Definition initBackground_finish (i : nat) (p : Probe) (finalUrl : jsval)
    (w : World) : Task * World :=
  ({| owner := i; pc := InitDone finalUrl; probe := p |},
   if truthy finalUrl then
     setBackgroundUrl i finalUrl (set_globalBackgroundUrl finalUrl w)
   else w).

(** [initBackground()] up to its first [await]. *)
Definition initBackground {P : Platform} (i : nat) (w : World) : Task * World :=
  let '(cached, w1) := getCachedBackground w in
  if truthy cached then
    let '(p, w2) := preloadImage cached w1 in
    ({| owner := i; pc := AwaitCached cached; probe := p |}, w2)
  else initBackground_fallback i w1.

(** [refreshBackground()] up to its [await]. *)
Definition refreshBackground (i : nat) (w : World) : Task * World :=
  let '(newUrl, w1) := fetchNewBackground w in
  let '(p, w2) := preloadImage (JStr newUrl) w1 in
  ({| owner := i; pc := AwaitRefresh newUrl; probe := p |}, w2).

(** The continuation of a suspended task once its probe resolved to
    [isValid]: runs to the next [await] or to the end. *)
Definition resume {P : Platform} (t : Task) (isValid : bool) (w : World) : Task * World :=
  match pc t with
  | AwaitCached cached =>
      if isValid then
        (* finalUrl = cached; the fallback is skipped as cached is truthy *)
        initBackground_finish (owner t) (probe t) cached w
      else
        initBackground_fallback (owner t) (localStorage_removeItem BG_CACHE_KEY w)
  | AwaitNew newUrl =>
      if isValid then
        initBackground_finish (owner t) (probe t) (JStr newUrl)
          (setCachedBackground newUrl w)
      else
        initBackground_finish (owner t) (probe t) (JStr "") w
  | AwaitRefresh newUrl =>
      ({| owner := owner t; pc := RefreshDone isValid; probe := probe t |},
       if isValid then
         setIsLoaded (owner t) false
           (setCachedBackground newUrl
              (setBackgroundUrl (owner t) (JStr newUrl)
                 (set_globalIsLoaded false
                    (set_globalBackgroundUrl (JStr newUrl) w))))
       else w)
  | InitDone _ | RefreshDone _ => (t, w)
  end.

(** First render of a [BackgroundProvider]: the initialisers of its hooks. *)
Definition BackgroundProvider_mount (w : World) : World :=
  set_providers
    (providers w ++
       [{| backgroundUrl := js_or (globalBackgroundUrl w) (JStr "");
           isLoaded := globalIsLoaded w;
           isInitializing := false |}]) w.

(** The [useEffect] callback of provider instance [i] (lines 92-137). *)
Definition BackgroundProvider_effect {P : Platform} (i : nat) (w : World) : World :=
  match providers w !! i with
  | None => w
  | Some p =>
      if truthy (globalBackgroundUrl w) then
        setIsLoaded i (globalIsLoaded w) (setBackgroundUrl i (globalBackgroundUrl w) w)
      else if isInitializing p then w
      else
        let '(t, w') := initBackground i (set_isInitializing i true w) in
        set_tasks (tasks w' ++ [t]) w'
  end.

(** [setLoaded()] of provider instance [i]. *)
Definition setLoaded (i : nat) (w : World) : World :=
  setIsLoaded i true (set_globalIsLoaded true w).

(** ** The event loop *)

Inductive Event : Type :=
  | EvTick (d : Z)                    (* time passes *)
  | EvMount                           (* a BackgroundProvider is mounted *)
  | EvEffect (i : nat)                (* the effect of provider i runs *)
  | EvSetLoaded (i : nat)             (* a consumer calls setLoaded *)
  | EvRefresh (i : nat)               (* a consumer calls refreshBackground *)
  | EvImage (t : nat) (e : ImgEvent). (* a callback of task t's probe fires *)

(** One turn of the event loop; [None] when the event cannot occur. *)
Definition step {P : Platform} (ev : Event) (w : World) : option World :=
  match ev with
  | EvTick d => if 0 <=? d then Some (set_clock (clock w + d) w) else None
  | EvMount => Some (BackgroundProvider_mount w)
  | EvEffect i =>
      if decide (i < length (providers w))%nat
      then Some (BackgroundProvider_effect i w) else None
  | EvSetLoaded i =>
      if decide (i < length (providers w))%nat
      then Some (setLoaded i w) else None
  | EvRefresh i =>
      if decide (i < length (providers w))%nat
      then let '(t, w') := refreshBackground i w in
           Some (set_tasks (tasks w' ++ [t]) w')
      else None
  | EvImage n e =>
      t ← tasks w !! n;
      p' ← preloadImage_handler (clock w) e (probe t);
      let t' := {| owner := owner t; pc := pc t; probe := p' |} in
      match promise (probe t), promise p' with
      | Pending, Resolved isValid =>
          let '(t'', w') := resume t' isValid w in
          Some (set_tasks (<[n := t'']> (tasks w')) w')
      | _, _ => Some (set_tasks (<[n := t']> (tasks w)) w)
      end
  end.

Fixpoint run {P : Platform} (evs : list Event) (w : World) : option World :=
  match evs with
  | [] => Some w
  | ev :: rest => w' ← step ev w; run rest w'
  end.

(** The state at process start in a browser (lines 22-23: no background,
    not loaded; nothing mounted yet), at time [now] with [localStorage]
    holding [m]. *)
Definition World_init (now : Z) (m : gmap string string) : World :=
  {| clock := now; has_window := true; storage := m; storage_full := false;
     globalBackgroundUrl := JNull; globalIsLoaded := false;
     providers := []; tasks := []; trace := [] |}.

(** ** One initialisation or refresh run on its own *)

(** The network as seen by a probe: from the time a load starts and its
    source, which callback fires first and how many milliseconds later (for
    the timer: how late after it is due). *)
Definition Network : Type := Z -> jsval -> ImgEvent * nat.

Definition settle_time (start : Z) (e : ImgEvent) (d : nat) : Z :=
  match e with
  | OnLoad | OnError => start + Z.of_nat d
  | OnTimeout => start + BG_LOAD_TIMEOUT + Z.of_nat d
  end.

(** [await] of the pending probe of a task when nothing else is scheduled
    in between: time passes, the first callback fires, the task resumes. *)
Definition await {P : Platform} (net : Network) (tw : Task * World) : Task * World :=
  let '(t, w) := tw in
  match promise (probe t) with
  | Pending =>
      let '(e, d) := net (clock w) (img_src (probe t)) in
      let now := settle_time (clock w) e d in
      match preloadImage_handler now e (probe t) with
      | Some p' =>
          match promise p' with
          | Resolved isValid =>
              resume {| owner := owner t; pc := pc t; probe := p' |} isValid
                (set_clock now w)
          | Pending | Rejected => tw
          end
      | None => tw
      end
  | Resolved _ | Rejected => tw
  end.

(** [initBackground()] run to completion: at most two probes. *)
Definition initBackground_alone {P : Platform} (net : Network) (i : nat) (w : World)
    : Task * World :=
  await net (await net (initBackground i w)).


(** The value of the local [finalUrl] when [initBackground] ended. *)
Definition finalUrl (t : Task) : option jsval :=
  match pc t with
  | InitDone v => Some v
  | _ => None
  end.

(** ** Counting initialisations and fetches *)

(** Initialisation tasks, as opposed to refresh tasks. *)
Definition is_init (c : Pc) : bool :=
  match c with
  | AwaitCached _ | AwaitNew _ | InitDone _ => true
  | AwaitRefresh _ | RefreshDone _ => false
  end.

Definition init_task_of (i : nat) (t : Task) : bool :=
  Nat.eqb (owner t) i && is_init (pc t).

(** How many tasks satisfy [f]. *)
Fixpoint count_tasks (f : Task -> bool) (l : list Task) : nat :=
  match l with
  | [] => 0
  | t :: rest => (if f t then 1 else 0) + count_tasks f rest
  end.

(** How many initialisation sequences provider instance [i] has started. *)
Definition initializations (i : nat) (w : World) : nat :=
  count_tasks (init_task_of i) (tasks w).

(** [isInitializing.current] of provider instance [i]; [false] when there is
    no such instance. *)
Definition guard (i : nat) (w : World) : bool :=
  from_option isInitializing false (providers w !! i).

(** How many candidate URLs were generated (fallback fetches). *)
Fixpoint fetches (tr : list Effect) : nat :=
  match tr with
  | [] => 0
  | EGenerated _ :: rest => S (fetches rest)
  | _ :: rest => fetches rest
  end.

(** Whether a task at this point has, or may have, generated a candidate. *)
Definition fetched (c : Pc) : nat :=
  match c with
  | AwaitCached _ => 0
  | AwaitNew _ | AwaitRefresh _ | InitDone _ | RefreshDone _ => 1
  end.

Fixpoint fetched_sum (l : list Task) : nat :=
  match l with
  | [] => 0
  | t :: rest => fetched (pc t) + fetched_sum rest
  end.

(** The invariant of the event loop: a provider instance has started one
    initialisation sequence if its guard is set and none otherwise, and no
    more candidates were generated than the tasks account for. *)
Definition single_flight (w : World) : Prop :=
  (forall i, initializations i w = if guard i w then 1%nat else 0%nat) /\
  (fetches (trace w) <= fetched_sum (tasks w))%nat.

(** How many image loads were started. *)
Fixpoint image_loads (tr : list Effect) : nat :=
  match tr with
  | [] => 0
  | EImageLoad _ :: rest => S (image_loads rest)
  | _ :: rest => image_loads rest
  end.

(** How many initialisation sequences were started, by any provider. *)
Definition initializations_total (w : World) : nat :=
  count_tasks (fun t => is_init (pc t)) (tasks w).

(** A value a background URL variable may hold without being shown as an
    empty string: [null] or something truthy. *)
Definition null_or_truthy (v : jsval) : Prop :=
  v = JNull \/ truthy v = true.

(** The same for the [backgroundUrl] state of a provider, which starts as
    [globalBackgroundUrl || '']. *)
Definition empty_or_truthy (v : jsval) : Prop :=
  v = JStr "" \/ truthy v = true.

(** A refresh task waits for the probe of a non-empty URL. *)
Definition refresh_url_ok (t : Task) : Prop :=
  match pc t with
  | AwaitRefresh u => truthy (JStr u) = true
  | _ => True
  end.

(** The URL variables of a state are well formed: the singleton is [null]
    or truthy, every provider shows the empty string or something truthy,
    and every pending refresh carries a non-empty candidate. *)
Definition urls_ok (w : World) : Prop :=
  null_or_truthy (globalBackgroundUrl w) /\
  Forall (fun p => empty_or_truthy (backgroundUrl p)) (providers w) /\
  Forall refresh_url_ok (tasks w).

(** ** An executable JSON codec

    A concrete [Platform] for evaluating the model on actual storage
    contents.  It covers the JSON texts whose numbers are integers and whose
    strings are made of one-byte characters; any other text is rejected. *)

Module Json.

Definition ch (n : nat) : ascii := ascii_of_nat n.
Definition code (c : ascii) : nat := nat_of_ascii c.

Definition is_ws (c : ascii) : bool :=
  let n := code c in
  (n =? 32)%nat || (n =? 9)%nat || (n =? 10)%nat || (n =? 13)%nat.

Definition is_digit (c : ascii) : bool :=
  let n := code c in (48 <=? n)%nat && (n <=? 57)%nat.

Fixpoint skip_ws (s : string) : string :=
  match s with
  | String c r => if is_ws c then skip_ws r else s
  | EmptyString => s
  end.

(** [eat p s]: [s] without its prefix [p]. *)
Fixpoint eat (p s : string) : option string :=
  match p, s with
  | EmptyString, _ => Some s
  | String a p', String b s' => if Ascii.eqb a b then eat p' s' else None
  | String _ _, EmptyString => None
  end.

Definition hex_val (c : ascii) : option nat :=
  let n := code c in
  if (48 <=? n)%nat && (n <=? 57)%nat then Some (n - 48)%nat
  else if (97 <=? n)%nat && (n <=? 102)%nat then Some (n - 87)%nat
  else if (65 <=? n)%nat && (n <=? 70)%nat then Some (n - 55)%nat
  else None.

(** The character named by the escape [\e]. *)
Definition unescape (e : ascii) : option ascii :=
  let n := code e in
  if (n =? 34)%nat then Some (ch 34)            (* quote *)
  else if (n =? 92)%nat then Some (ch 92)       (* backslash *)
  else if (n =? 47)%nat then Some (ch 47)       (* slash *)
  else if (n =? 98)%nat then Some (ch 8)        (* b *)
  else if (n =? 102)%nat then Some (ch 12)      (* f *)
  else if (n =? 110)%nat then Some (ch 10)      (* n *)
  else if (n =? 114)%nat then Some (ch 13)      (* r *)
  else if (n =? 116)%nat then Some (ch 9)       (* t *)
  else None.

(** The characters of a string literal after its opening quote, and the
    text after its closing quote. *)
Fixpoint parse_chars (s : string) : option (string * string) :=
  match s with
  | EmptyString => None
  | String c r =>
      if (code c =? 34)%nat then Some (EmptyString, r)
      else if (code c =? 92)%nat then
        match r with
        | EmptyString => None
        | String e r1 =>
            if (code e =? 117)%nat then
              match r1 with
              | String h1 (String h2 (String h3 (String h4 r2))) =>
                  match hex_val h1, hex_val h2, hex_val h3, hex_val h4 with
                  | Some 0%nat, Some 0%nat, Some a, Some b =>
                      '(str, rest) ← parse_chars r2;
                      Some (String (ch (16 * a + b)) str, rest)
                  | _, _, _, _ => None
                  end
              | _ => None
              end
            else
              c' ← unescape e;
              '(str, rest) ← parse_chars r1;
              Some (String c' str, rest)
        end
      else if (code c <? 32)%nat then None
      else '(str, rest) ← parse_chars r; Some (String c str, rest)
  end.

Fixpoint parse_digits (acc : Z) (s : string) : Z * string :=
  match s with
  | String c r =>
      if is_digit c then parse_digits (10 * acc + Z.of_nat (code c - 48)) r
      else (acc, s)
  | EmptyString => (acc, s)
  end.

(** An integer without sign. *)
Definition parse_nat (s : string) : option (Z * string) :=
  match s with
  | String c r =>
      if (code c =? 48)%nat then Some (0, r)
      else if is_digit c then Some (parse_digits 0 s)
      else None
  | EmptyString => None
  end.

Definition parse_number (s : string) : option (Z * string) :=
  match s with
  | String c r =>
      if (code c =? 45)%nat then '(z, rest) ← parse_nat r; Some (- z, rest)
      else parse_nat s
  | EmptyString => None
  end.

Fixpoint parse_value (fuel : nat) (s : string) : option (jsval * string) :=
  match fuel with
  | O => None
  | S f =>
      match s with
      | EmptyString => None
      | String c r =>
          if (code c =? 34)%nat then
            '(str, rest) ← parse_chars r; Some (JStr str, rest)
          else if (code c =? 123)%nat then
            match skip_ws r with
            | String c' r' =>
                if (code c' =? 125)%nat then Some (JObj [], r')
                else parse_members f [] (skip_ws r)
            | EmptyString => None
            end
          else if (code c =? 91)%nat then
            match skip_ws r with
            | String c' r' =>
                if (code c' =? 93)%nat then Some (JArr [], r')
                else parse_elements f [] (skip_ws r)
            | EmptyString => None
            end
          else if (code c =? 116)%nat then rest ← eat "true" s; Some (JBool true, rest)
          else if (code c =? 102)%nat then rest ← eat "false" s; Some (JBool false, rest)
          else if (code c =? 110)%nat then rest ← eat "null" s; Some (JNull, rest)
          else '(z, rest) ← parse_number s; Some (JNum z, rest)
      end
  end
with parse_members (fuel : nat) (acc : list (string * jsval)) (s : string)
    : option (jsval * string) :=
  match fuel with
  | O => None
  | S f =>
      match s with
      | EmptyString => None
      | String c r =>
          if (code c =? 34)%nat then
            '(k, r1) ← parse_chars r;
            match skip_ws r1 with
            | String c1 r2 =>
                if (code c1 =? 58)%nat then
                  '(v, r3) ← parse_value f (skip_ws r2);
                  match skip_ws r3 with
                  | String c2 r4 =>
                      if (code c2 =? 44)%nat then
                        parse_members f (acc ++ [(k, v)]) (skip_ws r4)
                      else if (code c2 =? 125)%nat then
                        Some (JObj (acc ++ [(k, v)]), r4)
                      else None
                  | EmptyString => None
                  end
                else None
            | EmptyString => None
            end
          else None
      end
  end
with parse_elements (fuel : nat) (acc : list jsval) (s : string)
    : option (jsval * string) :=
  match fuel with
  | O => None
  | S f =>
      '(v, r1) ← parse_value f s;
      match skip_ws r1 with
      | String c r2 =>
          if (code c =? 44)%nat then parse_elements f (acc ++ [v]) (skip_ws r2)
          else if (code c =? 93)%nat then Some (JArr (acc ++ [v]), r2)
          else None
      | EmptyString => None
      end
  end.

Definition parse (s : string) : option jsval :=
  '(v, rest) ← parse_value (S (String.length s)) (skip_ws s);
  match skip_ws rest with
  | EmptyString => Some v
  | String _ _ => None
  end.

Definition hex_digit (n : nat) : ascii :=
  if (n <? 10)%nat then ch (48 + n) else ch (87 + n).

Definition escape_char (c : ascii) : string :=
  let n := code c in
  let bs := ch 92 in
  if (n =? 34)%nat then String bs (String (ch 34) EmptyString)
  else if (n =? 92)%nat then String bs (String bs EmptyString)
  else if (n =? 8)%nat then String bs "b"
  else if (n =? 12)%nat then String bs "f"
  else if (n =? 10)%nat then String bs "n"
  else if (n =? 13)%nat then String bs "r"
  else if (n =? 9)%nat then String bs "t"
  else if (n <? 32)%nat then
    String bs ("u00" +:+ String (hex_digit (n / 16)) (String (hex_digit (n mod 16)) EmptyString))
  else String c EmptyString.

Fixpoint escape (s : string) : string :=
  match s with
  | EmptyString => EmptyString
  | String c r => escape_char c +:+ escape r
  end.

Definition quote (s : string) : string :=
  String (ch 34) (escape s +:+ String (ch 34) EmptyString).

Fixpoint join (sep : string) (parts : list string) : string :=
  match parts with
  | [] => EmptyString
  | [p] => p
  | p :: rest => p +:+ sep +:+ join sep rest
  end.

(** [undefined] is written as [null] inside an array and left out of an
    object. *)
Fixpoint stringify (v : jsval) : string :=
  match v with
  | JUndefined | JNull => "null"
  | JBool true => "true"
  | JBool false => "false"
  | JNum z => pretty z
  | JStr s => quote s
  | JArr items =>
      "[" +:+ join "," ((fix each (l : list jsval) : list string :=
                           match l with
                           | [] => []
                           | x :: l' => stringify x :: each l'
                           end) items) +:+ "]"
  | JObj fields =>
      "{" +:+ join "," ((fix each (l : list (string * jsval)) : list string :=
                           match l with
                           | [] => []
                           | (_, JUndefined) :: l' => each l'
                           | (k, x) :: l' => (quote k +:+ ":" +:+ stringify x) :: each l'
                           end) fields) +:+ "}"
  end.

(** A text at which a run of digits ends. *)
Definition stops (rest : string) : Prop :=
  match rest with
  | EmptyString => True
  | String c _ => is_digit c = false
  end.

(** The text written for a record. *)
Definition record_text (url : string) (T : Z) : string :=
  String (ch 123) (String (ch 34) ("url" +:+
    String (ch 34) (String ":" (String (ch 34) (escape url +:+
      String (ch 34) (String "," (String (ch 34) ("timestamp" +:+
        String (ch 34) (String ":" (pretty T +:+ "}")))))))))).

(** [ToNumber] beyond the primitives, approximated: a string of blanks is
    [0], a string holding a decimal integer is that integer, and anything
    else (other numeric spellings included) is taken as [NaN].  No result
    below depends on this function: they hold for every [Platform]. *)
Definition to_number_ext (v : jsval) : option (option Z) :=
  match v with
  | JStr s =>
      match skip_ws s with
      | EmptyString => Some (Some 0)
      | String _ _ =>
          match parse_number (skip_ws s) with
          | Some (z, rest) =>
              match skip_ws rest with
              | EmptyString => Some (Some z)
              | String _ _ => Some None
              end
          | None => Some None
          end
      end
  | _ => Some None
  end.

#[export] Instance platform : Platform := {|
  JSON_parse := parse;
  JSON_stringify := stringify;
  ToNumber_ext := to_number_ext;
  JSON_parse_empty := eq_refl
|}.

End Json.

(** * Properties *)

(** ** The codec reads back the record it writes *)

Lemma append_nil (s : string) : "" +:+ s = s.
Proof. reflexivity. Qed.

Lemma append_cons (c : ascii) (a b : string) : String c a +:+ b = String c (a +:+ b).
Proof. reflexivity. Qed.

Lemma append_assoc (a b c : string) : (a +:+ b) +:+ c = a +:+ (b +:+ c).
Proof.
  induction a as [|x a IH]; [reflexivity|].
  rewrite !append_cons. by f_equal.
Qed.

(** Appends of literals, flattened to the right. *)
Ltac norm_append :=
  repeat (rewrite append_assoc || rewrite append_cons || rewrite append_nil).

Lemma parse_chars_escape_char (c : ascii) (rest : string) :
  Json.parse_chars (Json.escape_char c +:+ rest)
  = '(str, r) ← Json.parse_chars rest; Some (String c str, r).
Proof.
  destruct c as [[] [] [] [] [] [] [] []]; reflexivity.
Qed.

Lemma parse_chars_escape (s rest : string) :
  Json.parse_chars (Json.escape s +:+ String (Json.ch 34) rest) = Some (s, rest).
Proof.
  induction s as [|c s IH]; [done|].
  simpl Json.escape. rewrite append_assoc.
  rewrite parse_chars_escape_char, IH. done.
Qed.

Lemma parse_digits_char (acc : Z) (x : N) (s : string) :
  (x < 10)%N ->
  Json.parse_digits acc (String (pretty_N_char x) s)
  = Json.parse_digits (10 * acc + Z.of_N x) s.
Proof.
  intros Hx.
  assert (x = 0 \/ x = 1 \/ x = 2 \/ x = 3 \/ x = 4 \/ x = 5 \/ x = 6 \/ x = 7
          \/ x = 8 \/ x = 9)%N as Hcases by lia.
  repeat (destruct Hcases as [->|Hcases]); try subst x; reflexivity.
Qed.

Lemma parse_digits_pretty (x : N) (acc : Z) (s : string) :
  exists k : Z,
    0 <= k /\
    Json.parse_digits acc (pretty_N_go x s)
    = Json.parse_digits (acc * 10 ^ k + Z.of_N x) s.
Proof.
  revert acc s. induction (N.lt_wf_0 x) as [x _ IH]. intros acc s.
  destruct (decide (x = 0%N)) as [->|Hpos].
  - exists 0. split; [done|]. rewrite pretty_N_go_0. f_equal. lia.
  - rewrite pretty_N_go_step by lia.
    destruct (IH (x `div` 10)%N ltac:(apply N.div_lt; lia) acc
                (String (pretty_N_char (x `mod` 10)) s)) as (k & Hk & ->).
    exists (k + 1). split; [lia|].
    rewrite parse_digits_char by (apply N.mod_lt; lia).
    f_equal. rewrite Z.pow_add_r by lia.
    rewrite N2Z.inj_div, N2Z.inj_mod.
    pose proof (Z.div_mod (Z.of_N x) 10 ltac:(lia)). lia.
Qed.

Lemma pretty_N_go_head (x : N) (s : string) :
  (0 < x)%N ->
  exists (c : ascii) (r : string),
    pretty_N_go x s = String c r /\ Json.is_digit c = true /\
    (Json.code c =? 48)%nat = false /\ (Json.code c =? 45)%nat = false.
Proof.
  revert s. induction (N.lt_wf_0 x) as [x _ IH]. intros s Hpos.
  rewrite pretty_N_go_step by done.
  destruct (decide (x < 10)%N) as [Hsmall|Hbig].
  - rewrite N.div_small, pretty_N_go_0, N.mod_small by done.
    exists (pretty_N_char x), s. split; [done|].
    assert (x = 1 \/ x = 2 \/ x = 3 \/ x = 4 \/ x = 5 \/ x = 6 \/ x = 7
            \/ x = 8 \/ x = 9)%N as Hcases by lia.
    repeat (destruct Hcases as [->|Hcases]); try subst x; repeat split; reflexivity.
  - apply IH; [apply N.div_lt; lia|].
    apply N.div_str_pos. lia.
Qed.

Lemma pretty_N_go_append (x : N) (s rest : string) :
  pretty_N_go x s +:+ rest = pretty_N_go x (s +:+ rest).
Proof.
  revert s. induction (N.lt_wf_0 x) as [x _ IH]. intros s.
  destruct (decide (x = 0%N)) as [->|Hpos].
  - by rewrite !pretty_N_go_0.
  - rewrite (pretty_N_go_step x s), (pretty_N_go_step x (s +:+ rest)) by lia.
    rewrite IH by (apply N.div_lt; lia). reflexivity.
Qed.

Lemma parse_digits_stop (acc : Z) (rest : string) :
  Json.stops rest -> Json.parse_digits acc rest = (acc, rest).
Proof. destruct rest as [|c r]; simpl; [done|]. by intros ->. Qed.

Lemma parse_number_pretty (z : Z) (rest : string) :
  Json.stops rest ->
  Json.parse_number (pretty z +:+ rest) = Some (z, rest).
Proof.
  intros Hstop.
  assert (forall p : positive,
            Json.parse_nat (pretty (Npos p) +:+ rest) = Some (Z.pos p, rest)
            /\ exists c r, pretty (Npos p) +:+ rest = String c r /\
                           (Json.code c =? 45)%nat = false) as Hpos.
  { intros p.
    assert (pretty (Npos p) = pretty_N_go (Npos p) "") as ->.
    { unfold pretty, pretty_N. by destruct (decide (Npos p = 0%N)). }
    rewrite pretty_N_go_append, append_nil.
    destruct (pretty_N_go_head (Npos p) rest ltac:(lia))
      as (c & r & Heq & Hdigit & Hnz & Hnd).
    split; [|by exists c, r].
    unfold Json.parse_nat. rewrite Heq, Hnz, Hdigit. rewrite <- Heq.
    destruct (parse_digits_pretty (Npos p) 0 rest) as (k & _ & ->).
    simpl. by rewrite parse_digits_stop. }
  destruct z as [|p|p].
  - done.
  - destruct (Hpos p) as (Hnat & c & r & Heq & Hnd).
    change (pretty (Z.pos p)) with (pretty (Npos p)).
    unfold Json.parse_number. rewrite Heq, Hnd. rewrite <- Heq. done.
  - destruct (Hpos p) as (Hnat & _).
    change (pretty (Z.neg p)) with ("-" +:+ pretty (Npos p)).
    rewrite append_assoc, append_cons, append_nil.
    unfold Json.parse_number.
    change (Json.code "-" =? 45)%nat with true. cbv iota.
    by rewrite Hnat.
Qed.

Lemma stringify_record (url : string) (T : Z) :
  Json.stringify (cache_record url T) = Json.record_text url T.
Proof.
  unfold cache_record, Json.stringify, Json.join, Json.quote, Json.record_text.
  change (Json.escape "url") with "url".
  change (Json.escape "timestamp") with "timestamp".
  norm_append. reflexivity.
Qed.

Lemma pretty_Z_head (z : Z) (rest : string) :
  exists (c : ascii) (r : string),
    pretty z +:+ rest = String c r /\
    (Json.is_digit c = true \/ (Json.code c =? 45)%nat = true).
Proof.
  destruct z as [|p|p].
  - exists "0"%char, rest. by split; [|left].
  - change (pretty (Z.pos p)) with (pretty (Npos p)).
    assert (pretty (Npos p) = pretty_N_go (Npos p) "") as ->.
    { unfold pretty, pretty_N. by destruct (decide (Npos p = 0%N)). }
    rewrite pretty_N_go_append, append_nil.
    destruct (pretty_N_go_head (Npos p) rest ltac:(lia)) as (c & r & -> & Hd & _).
    exists c, r. by split; [|left].
  - exists "-"%char, (pretty (Npos p) +:+ rest). split; [|by right].
    change (pretty (Z.neg p)) with ("-" +:+ pretty (Npos p)).
    by norm_append.
Qed.

Lemma parse_value_number (f : nat) (z : Z) (rest : string) :
  Json.stops rest ->
  Json.parse_value (S f) (pretty z +:+ rest) = Some (JNum z, rest).
Proof.
  intros Hstop.
  pose proof (parse_number_pretty z rest Hstop) as Hnum.
  destruct (pretty_Z_head z rest) as (c & r & Heq & Hc).
  rewrite Heq in *. cbn -[Json.parse_number Json.code Nat.eqb].
  assert ((Json.code c =? 34)%nat = false /\ (Json.code c =? 123)%nat = false /\
          (Json.code c =? 91)%nat = false /\ (Json.code c =? 116)%nat = false /\
          (Json.code c =? 102)%nat = false /\ (Json.code c =? 110)%nat = false)
    as (-> & -> & -> & -> & -> & ->).
  { unfold Json.is_digit in Hc.
    destruct Hc as [Hc|Hc].
    - apply andb_true_iff in Hc as [Hlo%Nat.leb_le Hhi%Nat.leb_le].
      repeat split; apply Nat.eqb_neq; lia.
    - apply Nat.eqb_eq in Hc. repeat split; apply Nat.eqb_neq; lia. }
  by rewrite Hnum.
Qed.

Lemma parse_key (k rest : string) :
  Json.escape k = k ->
  Json.parse_chars (k +:+ String (Json.ch 34) rest) = Some (k, rest).
Proof. intros Hk. rewrite <- Hk at 1. apply parse_chars_escape. Qed.

Lemma parse_value_object (f : nat) (rest : string) :
  Json.parse_value (S f) (String (Json.ch 123) (String (Json.ch 34) rest))
  = Json.parse_members f [] (String (Json.ch 34) rest).
Proof. reflexivity. Qed.

Lemma parse_value_string (f : nat) (s rest : string) :
  Json.parse_value (S f) (String (Json.ch 34) (Json.escape s +:+ String (Json.ch 34) rest))
  = Some (JStr s, rest).
Proof.
  change (Json.parse_value (S f) (String (Json.ch 34) ?x))
    with ('(str, r) ← Json.parse_chars x; Some (JStr str, r)).
  by rewrite parse_chars_escape.
Qed.

Lemma parse_members_colon (f : nat) (acc : list (string * jsval)) (k rest : string) :
  Json.escape k = k ->
  Json.parse_members (S f) acc
    (String (Json.ch 34) (k +:+ String (Json.ch 34) (String ":" rest)))
  = '(v, r3) ← Json.parse_value f (Json.skip_ws rest);
    match Json.skip_ws r3 with
    | String c2 r4 =>
        if (Json.code c2 =? 44)%nat then
          Json.parse_members f (acc ++ [(k, v)]) (Json.skip_ws r4)
        else if (Json.code c2 =? 125)%nat then Some (JObj (acc ++ [(k, v)]), r4)
        else None
    | EmptyString => None
    end.
Proof.
  intros Hk.
  change (Json.parse_members (S f) acc (String (Json.ch 34) ?x))
    with ('(k', r1) ← Json.parse_chars x;
          match Json.skip_ws r1 with
          | String c1 r2 =>
              if (Json.code c1 =? 58)%nat then
                '(v, r3) ← Json.parse_value f (Json.skip_ws r2);
                match Json.skip_ws r3 with
                | String c2 r4 =>
                    if (Json.code c2 =? 44)%nat then
                      Json.parse_members f (acc ++ [(k', v)]) (Json.skip_ws r4)
                    else if (Json.code c2 =? 125)%nat then
                      Some (JObj (acc ++ [(k', v)]), r4)
                    else None
                | EmptyString => None
                end
              else None
          | EmptyString => None
          end).
  by rewrite parse_key.
Qed.

Lemma skip_ws_number (z : Z) (rest : string) :
  Json.skip_ws (pretty z +:+ rest) = pretty z +:+ rest.
Proof.
  destruct (pretty_Z_head z rest) as (c & r & -> & Hc).
  simpl. assert (Json.is_ws c = false) as ->; [|done].
  unfold Json.is_ws, Json.is_digit in *.
  destruct Hc as [Hc|Hc].
  - apply andb_true_iff in Hc as [Hlo%Nat.leb_le Hhi%Nat.leb_le].
    repeat (apply orb_false_iff; split); apply Nat.eqb_neq; lia.
  - apply Nat.eqb_eq in Hc. rewrite Hc. reflexivity.
Qed.

Lemma parse_record_text (f : nat) (url : string) (T : Z) :
  Json.parse_value (S (S (S (S f)))) (Json.record_text url T)
  = Some (cache_record url T, "").
Proof.
  unfold Json.record_text.
  rewrite parse_value_object, parse_members_colon by done.
  change (Json.skip_ws (String (Json.ch 34) ?x)) with (String (Json.ch 34) x).
  rewrite parse_value_string.
  change (Some (JStr url, ?r) ≫= ?k) with (k (JStr url, r)). cbv beta iota.
  change (Json.skip_ws (String "," (String (Json.ch 34) ?x)))
    with (String "," (String (Json.ch 34) x)).
  cbv iota.
  change (Json.code "," =? 44)%nat with true. cbv iota.
  change (Json.skip_ws (String (Json.ch 34) ?x)) with (String (Json.ch 34) x).
  rewrite parse_members_colon by done.
  rewrite skip_ws_number, parse_value_number by done.
  reflexivity.
Qed.

Lemma parse_stringify_record (url : string) (T : Z) :
  Json.parse (Json.stringify (cache_record url T)) = Some (cache_record url T).
Proof.
  rewrite stringify_record. unfold Json.parse.
  assert (exists f, String.length (Json.record_text url T) = S (S (S f))) as [f ->]
    by (eexists; reflexivity).
  change (Json.skip_ws (Json.record_text url T)) with (Json.record_text url T).
  by rewrite parse_record_text.
Qed.

(** ** Basic facts about the state setters and the cache *)

Section CacheStore.
Context {P : Platform}.

Lemma num_gt_nan (a : option Z) (b : option Z) :
  num_gt (num_sub a None) b = false.
Proof. by destruct a. Qed.

Lemma getCachedBackground_absent (w : World) :
  storage w !! BG_CACHE_KEY = None ->
  getCachedBackground w = (JNull, w).
Proof.
  intros Hnone. unfold getCachedBackground, getCachedBackground_try,
    localStorage_getItem.
  rewrite Hnone. by destruct (has_window w).
Qed.

(** What a read does on a stored text that parses to a value with a numeric
    [timestamp]. *)
Lemma getCachedBackground_record (w : World) (s : string) (data url : jsval)
    (timestamp : Z) :
  has_window w = true ->
  storage w !! BG_CACHE_KEY = Some s ->
  JSON_parse s = Some data ->
  get_prop data "timestamp" = Some (JNum timestamp) ->
  get_prop data "url" = Some url ->
  getCachedBackground w =
    if BG_EXPIRE_TIME <? clock w - timestamp
    then (JNull, localStorage_removeItem BG_CACHE_KEY w)
    else (url, w).
Proof.
  intros Hwin Hsto Hparse Hts Hurl.
  unfold getCachedBackground, getCachedBackground_try, localStorage_getItem.
  rewrite Hwin, Hsto. simpl.
  destruct (String.eqb s "") eqn:Hs.
  - apply String.eqb_eq in Hs. subst s.
    rewrite JSON_parse_empty in Hparse. discriminate.
  - rewrite Hparse. simpl. rewrite Hts. simpl.
    destruct (BG_EXPIRE_TIME <? clock w - timestamp); [done|].
    by rewrite Hurl.
Qed.

(** What a write does when storage takes it. *)
Lemma setCachedBackground_stored (url : string) (w : World) :
  has_window w = true ->
  storage_full w = false ->
  setCachedBackground url w =
    log (ESetItem BG_CACHE_KEY (JSON_stringify (cache_record url (clock w))))
      (set_storage
         (<[BG_CACHE_KEY := JSON_stringify (cache_record url (clock w))]> (storage w)) w).
Proof.
  intros Hwin Hfull. unfold setCachedBackground, localStorage_setItem.
  by rewrite Hwin, Hfull.
Qed.

End CacheStore.

(** ** CacheStore *)

(** C1: for a stored cache record [{url, timestamp}], a read at a time
    [now] with [now - timestamp > 24h] returns absent ([null]) and deletes
    the entry, so that a later read, at whatever time, returns absent too; a
    read with [now - timestamp <= 24h] returns the record's [url] and leaves
    the state as it was. *)
Theorem getCachedBackground_expiry {P : Platform} (w : World) (s url : string)
    (data : jsval) (timestamp : Z) :
  has_window w = true ->
  storage w !! BG_CACHE_KEY = Some s ->
  JSON_parse s = Some data ->
  get_prop data "url" = Some (JStr url) ->
  get_prop data "timestamp" = Some (JNum timestamp) ->
  (clock w - timestamp > BG_EXPIRE_TIME ->
     exists w',
       getCachedBackground w = (JNull, w') /\
       storage w' = delete BG_CACHE_KEY (storage w) /\
       storage w' !! BG_CACHE_KEY = None /\
       forall later : Z, getCachedBackground (set_clock later w') = (JNull, set_clock later w'))
  /\
  (clock w - timestamp <= BG_EXPIRE_TIME ->
     getCachedBackground w = (JStr url, w)).
Proof.
  intros Hwin Hsto Hparse Hurl Hts.
  pose proof (getCachedBackground_record w s data (JStr url) timestamp
                Hwin Hsto Hparse Hts Hurl) as Hread.
  split; intros Hage.
  - exists (localStorage_removeItem BG_CACHE_KEY w).
    assert ((BG_EXPIRE_TIME <? clock w - timestamp) = true) as Hlt
      by (apply Z.ltb_lt; lia).
    rewrite Hlt in Hread.
    repeat split; [done| |].
    + simpl. apply lookup_delete_eq.
    + intros later. apply getCachedBackground_absent. simpl.
      apply lookup_delete_eq.
  - assert ((BG_EXPIRE_TIME <? clock w - timestamp) = false) as Hge
      by (apply Z.ltb_ge; lia).
    by rewrite Hge in Hread.
Qed.

Lemma getCachedBackground_expiry_witness :
  let T := 1700000000000 in
  let stale := Json.stringify (cache_record "a" (T - 25 * 3600000)) in
  let fresh := Json.stringify (cache_record "a" (T - 1 * 3600000)) in
  (exists w',
     getCachedBackground (P := Json.platform)
       (World_init T {[BG_CACHE_KEY := stale]}) = (JNull, w') /\
     storage w' !! BG_CACHE_KEY = None) /\
  getCachedBackground (P := Json.platform)
    (World_init T {[BG_CACHE_KEY := fresh]})
    = (JStr "a", World_init T {[BG_CACHE_KEY := fresh]}).
Proof.
  intros T stale fresh. split.
  - assert (has_window (World_init T {[BG_CACHE_KEY := stale]}) = true)
      as Hwin by (vm_compute; reflexivity).
    assert (storage (World_init T {[BG_CACHE_KEY := stale]}) !! BG_CACHE_KEY = Some stale)
      as Hsto by (vm_compute; reflexivity).
    assert (JSON_parse (Platform := Json.platform) stale
            = Some (cache_record "a" (T - 25 * 3600000)))
      as Hparse by (vm_compute; reflexivity).
    assert (get_prop (cache_record "a" (T - 25 * 3600000)) "url" = Some (JStr "a"))
      as Hurl by (vm_compute; reflexivity).
    assert (get_prop (cache_record "a" (T - 25 * 3600000)) "timestamp"
            = Some (JNum (T - 25 * 3600000)))
      as Hts by (vm_compute; reflexivity).
    destruct (getCachedBackground_expiry (P := Json.platform)
                (World_init T {[BG_CACHE_KEY := stale]}) stale "a"
                (cache_record "a" (T - 25 * 3600000)) (T - 25 * 3600000)
                Hwin Hsto Hparse Hurl Hts)
      as [Hold _].
    destruct Hold as (w' & Hread & _ & Hgone & _); [vm_compute; reflexivity|].
    exists w'. split; assumption.
  - assert (has_window (World_init T {[BG_CACHE_KEY := fresh]}) = true)
      as Hwin by (vm_compute; reflexivity).
    assert (storage (World_init T {[BG_CACHE_KEY := fresh]}) !! BG_CACHE_KEY = Some fresh)
      as Hsto by (vm_compute; reflexivity).
    assert (JSON_parse (Platform := Json.platform) fresh
            = Some (cache_record "a" (T - 1 * 3600000)))
      as Hparse by (vm_compute; reflexivity).
    assert (get_prop (cache_record "a" (T - 1 * 3600000)) "url" = Some (JStr "a"))
      as Hurl by (vm_compute; reflexivity).
    assert (get_prop (cache_record "a" (T - 1 * 3600000)) "timestamp"
            = Some (JNum (T - 1 * 3600000)))
      as Hts by (vm_compute; reflexivity).
    apply (getCachedBackground_expiry (P := Json.platform)
             (World_init T {[BG_CACHE_KEY := fresh]}) fresh "a"
             (cache_record "a" (T - 1 * 3600000)) (T - 1 * 3600000)
             Hwin Hsto Hparse Hurl Hts).
    vm_compute. discriminate.
Defined.

(** A read of a stored text whose [timestamp] is not a number ([ToNumber]
    gives [NaN]): the expiry comparison is false, whatever the clock, and
    the [url] property is returned as it is. *)
Lemma getCachedBackground_nan {P : Platform} (w : World) (s : string)
    (data timestamp url : jsval) :
  has_window w = true ->
  storage w !! BG_CACHE_KEY = Some s ->
  JSON_parse s = Some data ->
  get_prop data "timestamp" = Some timestamp ->
  to_number timestamp = Some None ->
  get_prop data "url" = Some url ->
  getCachedBackground w = (url, w).
Proof.
  intros Hwin Hsto Hparse Hts Hnan Hurl.
  unfold getCachedBackground, getCachedBackground_try, localStorage_getItem.
  rewrite Hwin, Hsto. simpl.
  destruct (String.eqb s "") eqn:Hs.
  - apply String.eqb_eq in Hs. subst s.
    rewrite JSON_parse_empty in Hparse. discriminate.
  - rewrite Hparse. simpl. rewrite Hts. simpl. rewrite Hnan. simpl.
    by rewrite Hurl.
Qed.

(** C9: there is a stored text that is valid JSON but not a well-formed
    cache record, its [timestamp] being missing, for which a read returns
    the [url] field as a present value instead of absent, at every time: the
    expiry comparison against [NaN] is false.  The text is
    [{"url":"a"}]. *)
Theorem getCachedBackground_missing_timestamp :
  exists (s : string) (data : jsval),
    Json.parse s = Some data /\
    get_prop data "timestamp" = Some JUndefined /\
    (forall now : Z,
       num_gt (num_sub (Some now) None) (Some BG_EXPIRE_TIME) = false) /\
    forall w : World,
      has_window w = true ->
      storage w !! BG_CACHE_KEY = Some s ->
      getCachedBackground (P := Json.platform) w = (JStr "a", w).
Proof.
  exists (Json.stringify (JObj [("url", JStr "a")])), (JObj [("url", JStr "a")]).
  split; [by vm_compute|]. split; [done|].
  split; [intros now; apply num_gt_nan|].
  intros w Hwin Hsto.
  by apply (getCachedBackground_nan (P := Json.platform) w
              (Json.stringify (JObj [("url", JStr "a")]))
              (JObj [("url", JStr "a")]) JUndefined (JStr "a")).
Qed.

(** C10: round trip.  If [setCachedBackground url] is run at a time [T] in
    a browser whose storage takes the write, then a read in any later state
    that still holds what was written under the key, at a time [now] with
    [now - T <= 24h], returns [url].  The platform is assumed to read back
    the record it serialised. *)
Theorem cache_round_trip {P : Platform} (url : string) (w w2 : World) :
  has_window w = true ->
  storage_full w = false ->
  JSON_parse (JSON_stringify (cache_record url (clock w)))
    = Some (cache_record url (clock w)) ->
  has_window w2 = true ->
  storage w2 !! BG_CACHE_KEY = storage (setCachedBackground url w) !! BG_CACHE_KEY ->
  clock w2 - clock w <= BG_EXPIRE_TIME ->
  getCachedBackground w2 = (JStr url, w2).
Proof.
  intros Hwin Hfull Hrt Hwin2 Hkept Hage.
  rewrite setCachedBackground_stored in Hkept by done.
  simpl in Hkept. rewrite lookup_insert_eq in Hkept.
  rewrite (getCachedBackground_record w2 _ _ (JStr url) (clock w) Hwin2 Hkept Hrt)
    by done.
  assert ((BG_EXPIRE_TIME <? clock w2 - clock w) = false) as ->
    by (apply Z.ltb_ge; lia).
  done.
Qed.

Lemma cache_round_trip_witness :
  let w := World_init 1700000000000 ∅ in
  let w2 := set_clock (1700000000000 + BG_EXPIRE_TIME)
              (setCachedBackground (P := Json.platform) "https://loliapi.com/acg/?1" w) in
  getCachedBackground (P := Json.platform) w2
    = (JStr "https://loliapi.com/acg/?1", w2).
Proof.
  intros w w2.
  assert (has_window w = true) as Hwin by (vm_compute; reflexivity).
  assert (storage_full w = false) as Hfull by (vm_compute; reflexivity).
  assert (JSON_parse (Platform := Json.platform)
            (JSON_stringify (Platform := Json.platform)
               (cache_record "https://loliapi.com/acg/?1" (clock w)))
          = Some (cache_record "https://loliapi.com/acg/?1" (clock w)))
    as Hrt by (vm_compute; reflexivity).
  assert (has_window w2 = true) as Hwin2 by (vm_compute; reflexivity).
  assert (storage w2 !! BG_CACHE_KEY
          = storage (setCachedBackground (P := Json.platform)
                       "https://loliapi.com/acg/?1" w) !! BG_CACHE_KEY)
    as Hkept by (vm_compute; reflexivity).
  assert (clock w2 - clock w <= BG_EXPIRE_TIME) as Hage by (vm_compute; discriminate).
  exact (cache_round_trip (P := Json.platform) "https://loliapi.com/acg/?1" w w2
           Hwin Hfull Hrt Hwin2 Hkept Hage).
Defined.

(** ** ImageProbe *)

(** A probe that has settled stays as it is: its timer is gone, so only
    [load] and [error] can still fire, and they change nothing. *)
Lemma preloadImage_run_settled (es : list (Z * ImgEvent)) (p p' : Probe) (b : bool) :
  timer p = None ->
  promise p = Resolved b ->
  preloadImage_run es p = Some p' ->
  promise p' = Resolved b /\ img_src p' = img_src p /\ timer p' = None.
Proof.
  revert p. induction es as [|[now e] rest IH]; intros p Htimer Hprom Hrun.
  - simpl in Hrun. by simplify_eq.
  - simpl in Hrun. destruct e; simpl in Hrun.
    + apply IH in Hrun; simpl in *; [done|done|by rewrite Hprom].
    + apply IH in Hrun; simpl in *; [done|done|by rewrite Hprom].
    + by rewrite Htimer in Hrun.
Qed.



(** ** BackgroundResolver *)

Section Resolver.
Context {P : Platform}.

(** A read changes nothing, or only deletes the entry. *)
Lemma getCachedBackground_state (w : World) :
  (getCachedBackground w).2 = w \/
  ((getCachedBackground w).1 = JNull /\
   (getCachedBackground w).2 = localStorage_removeItem BG_CACHE_KEY w).
Proof.
  unfold getCachedBackground, getCachedBackground_try.
  destruct (has_window w); simpl; [|by left].
  destruct (localStorage_getItem BG_CACHE_KEY w) as [cached|]; [|by left].
  destruct (String.eqb cached ""); [by left|].
  destruct (JSON_parse cached) as [data|]; simpl; [|by left].
  destruct (get_prop data "timestamp") as [ts|]; simpl; [|by left].
  destruct (to_number ts) as [n|]; simpl; [|by left].
  destruct (num_gt _ _); [by right|].
  destruct (get_prop data "url"); simpl; by left.
Qed.

(** [await] on a probe that was started in the current turn. *)
Lemma await_pending (net : Network) (t : Task) (w : World) (e : ImgEvent) (d : nat) :
  promise (probe t) = Pending ->
  timer (probe t) = Some (clock w + BG_LOAD_TIMEOUT) ->
  net (clock w) (img_src (probe t)) = (e, d) ->
  await net (t, w) =
    resume {| owner := owner t; pc := pc t; probe := settled e (probe t) |}
      (verdict e) (set_clock (settle_time (clock w) e d) w).
Proof.
  intros Hpend Htimer Hnet. unfold await. rewrite Hpend, Hnet.
  unfold preloadImage_handler, settled, settle_time.
  destruct e; simpl; rewrite ?Hpend; try done.
  rewrite Htimer.
  assert ((clock w + BG_LOAD_TIMEOUT <=? clock w + BG_LOAD_TIMEOUT + Z.of_nat d) = true)
    as -> by (apply Z.leb_le; lia).
  simpl. by rewrite ?Hpend.
Qed.

(** The first callback of a probe started at [start] settles it. *)
Lemma preloadImage_handler_first (start : Z) (e : ImgEvent) (d : nat) (p : Probe) :
  promise p = Pending ->
  timer p = Some (start + BG_LOAD_TIMEOUT) ->
  preloadImage_handler (settle_time start e d) e p = Some (settled e p).
Proof.
  intros Hpend Htimer. unfold preloadImage_handler, settled, settle_time.
  destruct e; rewrite ?Hpend; try done.
  rewrite Htimer.
  assert ((start + BG_LOAD_TIMEOUT <=? start + BG_LOAD_TIMEOUT + Z.of_nat d) = true)
    as -> by (apply Z.leb_le; lia).
  by rewrite ?Hpend.
Qed.

(** [await] is two turns of the event loop: the delay, then the callback of
    the task's probe. *)
Lemma await_event_loop (net : Network) (n : nat) (t : Task) (w : World)
    (e : ImgEvent) (d : nat) :
  tasks w !! n = Some t ->
  promise (probe t) = Pending ->
  timer (probe t) = Some (clock w + BG_LOAD_TIMEOUT) ->
  net (clock w) (img_src (probe t)) = (e, d) ->
  run [EvTick (settle_time (clock w) e d - clock w); EvImage n e] w
  = Some (set_tasks (<[n := (await net (t, w)).1]> (tasks (await net (t, w)).2))
            (await net (t, w)).2).
Proof.
  intros Hn Hpend Htimer Hnet.
  rewrite (await_pending net t w e d Hpend Htimer Hnet).
  assert (0 <= settle_time (clock w) e d - clock w) as Hdelay.
  { unfold settle_time, BG_LOAD_TIMEOUT. destruct e; lia. }
  unfold run, step. apply Z.leb_le in Hdelay. rewrite Hdelay. simpl.
  replace (clock w + (settle_time (clock w) e d - clock w))
    with (settle_time (clock w) e d) by lia.
  rewrite Hn. simpl.
  rewrite (preloadImage_handler_first (clock w) e d (probe t) Hpend Htimer).
  simpl. rewrite Hpend.
  by destruct (resume _ _ _).
Qed.

(** [await] on a task that is not waiting. *)
Lemma await_done (net : Network) (t : Task) (w : World) (b : bool) :
  promise (probe t) = Resolved b -> await net (t, w) = (t, w).
Proof. intros Hres. unfold await. by rewrite Hres. Qed.

(** [initBackground] when the read yields a truthy value. *)
Lemma initBackground_cached (i : nat) (w w1 : World) (cached : jsval) :
  getCachedBackground w = (cached, w1) ->
  truthy cached = true ->
  initBackground i w =
    ({| owner := i; pc := AwaitCached cached;
        probe := {| img_src := cached;
                    timer := Some (clock w1 + BG_LOAD_TIMEOUT);
                    promise := Pending |} |},
     log (EImageLoad cached) w1).
Proof.
  intros Hread Htruthy. unfold initBackground. by rewrite Hread, Htruthy.
Qed.

(** [initBackground] when the read yields a falsy value. *)
Lemma initBackground_uncached (i : nat) (w w1 : World) (cached : jsval) :
  getCachedBackground w = (cached, w1) ->
  truthy cached = false ->
  initBackground i w = initBackground_fallback i w1.
Proof.
  intros Hread Hfalsy. unfold initBackground. by rewrite Hread, Hfalsy.
Qed.

End Resolver.

(** C2: for a cache record within its TTL whose URL passes the probe,
    [initBackground] ends with [finalUrl] the cached URL and publishes it;
    the only effect of the run is the one image load of the cached URL: no
    candidate URL is generated or probed, and storage is neither written nor
    deleted.  (An image whose source is the empty string never fires
    [load].) *)
Theorem initBackground_cache_hit {P : Platform} (net : Network) (i : nat)
    (w : World) (s url : string) (data : jsval) (timestamp : Z) (d : nat) :
  has_window w = true ->
  storage w !! BG_CACHE_KEY = Some s ->
  JSON_parse s = Some data ->
  get_prop data "url" = Some (JStr url) ->
  get_prop data "timestamp" = Some (JNum timestamp) ->
  clock w - timestamp <= BG_EXPIRE_TIME ->
  (forall t : Z, (net t (JStr "")).1 <> OnLoad) ->
  net (clock w) (JStr url) = (OnLoad, d) ->
  exists (t : Task) (w' : World),
    initBackground_alone net i w = (t, w') /\
    finalUrl t = Some (JStr url) /\
    globalBackgroundUrl w' = JStr url /\
    trace w' = (trace w ++ [EImageLoad (JStr url)])%list /\
    storage w' = storage w.
Proof.
  intros Hwin Hsto Hparse Hurl Hts Hage Hempty Hnet.
  assert (truthy (JStr url) = true) as Htruthy.
  { simpl. destruct (String.eqb url "") eqn:Heq; [|done].
    apply String.eqb_eq in Heq. subst url.
    specialize (Hempty (clock w)). by rewrite Hnet in Hempty. }
  assert (getCachedBackground w = (JStr url, w)) as Hread.
  { rewrite (getCachedBackground_record w s data (JStr url) timestamp) by done.
    assert ((BG_EXPIRE_TIME <? clock w - timestamp) = false) as ->
      by (apply Z.ltb_ge; lia).
    done. }
  unfold initBackground_alone.
  rewrite (initBackground_cached i w w (JStr url) Hread Htruthy).
  rewrite (await_pending net _ _ OnLoad d) by done.
  unfold resume, initBackground_finish. simpl pc. simpl verdict. cbv iota.
  rewrite Htruthy.
  erewrite await_done by done.
  eexists _, _. split; [done|]. by repeat split.
Qed.

Lemma initBackground_cache_hit_witness :
  let T := 1700000000000 in
  let url := "https://loliapi.com/acg/?1699999000000" in
  let s := Json.stringify (cache_record url (T - 3600000)) in
  let net : Network := fun _ src => if truthy src then (OnLoad, 120%nat) else (OnError, 0%nat) in
  exists (t : Task) (w' : World),
    initBackground_alone (P := Json.platform) net 0 (World_init T {[BG_CACHE_KEY := s]})
      = (t, w') /\
    finalUrl t = Some (JStr url) /\
    globalBackgroundUrl w' = JStr url /\
    trace w' = [EImageLoad (JStr url)] /\
    storage w' = {[BG_CACHE_KEY := s]}.
Proof.
  intros T url s net.
  set (w := World_init T {[BG_CACHE_KEY := s]}).
  assert (has_window w = true) as Hwin by (vm_compute; reflexivity).
  assert (storage w !! BG_CACHE_KEY = Some s) as Hsto by (vm_compute; reflexivity).
  assert (JSON_parse (Platform := Json.platform) s
          = Some (cache_record url (T - 3600000)))
    as Hparse by (vm_compute; reflexivity).
  assert (get_prop (cache_record url (T - 3600000)) "url" = Some (JStr url))
    as Hurl by (vm_compute; reflexivity).
  assert (get_prop (cache_record url (T - 3600000)) "timestamp"
          = Some (JNum (T - 3600000)))
    as Hts by (vm_compute; reflexivity).
  assert (clock w - (T - 3600000) <= BG_EXPIRE_TIME)
    as Hage by (vm_compute; discriminate).
  assert (forall t : Z, (net t (JStr "")).1 <> OnLoad)
    as Hempty by (intros t; vm_compute; discriminate).
  assert (net (clock w) (JStr url) = (OnLoad, 120%nat))
    as Hnet by (vm_compute; reflexivity).
  destruct (initBackground_cache_hit (P := Json.platform) net 0 w s url
              (cache_record url (T - 3600000)) (T - 3600000) 120%nat
              Hwin Hsto Hparse Hurl Hts Hage Hempty Hnet)
    as (t & w' & Hrun & Hfinal & Hglobal & Htrace & Hstorage).
  exists t, w'. repeat split; assumption.
Defined.









(** ** SharedState: the re-entry guard *)

Lemma count_tasks_app (f : Task -> bool) (l1 l2 : list Task) :
  count_tasks f (l1 ++ l2) = (count_tasks f l1 + count_tasks f l2)%nat.
Proof. induction l1 as [|t l1 IH]; simpl; [done|]. rewrite IH. lia. Qed.

Lemma count_tasks_insert (f : Task -> bool) (l : list Task) (n : nat) (t t' : Task) :
  l !! n = Some t ->
  f t' = f t ->
  count_tasks f (<[n := t']> l) = count_tasks f l.
Proof.
  revert n. induction l as [|x l IH]; intros [|n] Hn Hf; simpl in *; try done.
  - simplify_eq. by rewrite Hf.
  - by rewrite (IH n).
Qed.

Lemma fetched_sum_app (l1 l2 : list Task) :
  fetched_sum (l1 ++ l2) = (fetched_sum l1 + fetched_sum l2)%nat.
Proof. induction l1 as [|t l1 IH]; simpl; [done|]. rewrite IH. lia. Qed.

Lemma fetched_sum_insert (l : list Task) (n : nat) (t t' : Task) :
  l !! n = Some t ->
  (fetched_sum (<[n := t']> l) + fetched (pc t) = fetched_sum l + fetched (pc t'))%nat.
Proof.
  revert n. induction l as [|x l IH]; intros [|n] Hn; simpl in *; try done.
  - simplify_eq. lia.
  - specialize (IH n Hn). lia.
Qed.

Lemma fetched_sum_length (l : list Task) : (fetched_sum l <= length l)%nat.
Proof.
  induction l as [|t l IH]; simpl; [done|].
  destruct (pc t); simpl; lia.
Qed.

Lemma fetches_app (tr1 tr2 : list Effect) :
  fetches (tr1 ++ tr2) = (fetches tr1 + fetches tr2)%nat.
Proof.
  induction tr1 as [|e tr1 IH]; simpl; [done|]. destruct e; simpl; lia.
Qed.

(** State updates of a provider that keep its guard. *)
Lemma guard_alter (f : Provider -> Provider) (j i : nat) (ps : list Provider) :
  (forall p, isInitializing (f p) = isInitializing p) ->
  from_option isInitializing false (alter f j ps !! i)
  = from_option isInitializing false (ps !! i).
Proof.
  intros Hf. destruct (decide (j = i)) as [->|Hne].
  - rewrite list_lookup_alter_eq. destruct (ps !! i); simpl; [apply Hf|done].
  - by rewrite list_lookup_alter_ne.
Qed.

Section Guard.
Context {P : Platform}.

(** The continuation of a task touches neither the task list nor any guard;
    the task keeps its owner and its kind; and it generates a candidate at
    most when it moves from the cache probe to the fallback. *)
Lemma resume_frame (t : Task) (b : bool) (w : World) :
  tasks (resume t b w).2 = tasks w /\
  (forall i, guard i (resume t b w).2 = guard i w) /\
  (forall i, init_task_of i (resume t b w).1 = init_task_of i t) /\
  (fetches (trace (resume t b w).2) + fetched (pc t)
   <= fetches (trace w) + fetched (pc (resume t b w).1))%nat.
Proof.
  unfold resume, initBackground_finish, initBackground_fallback,
    fetchNewBackground, preloadImage, setCachedBackground, localStorage_setItem,
    localStorage_removeItem, setIsLoaded, setBackgroundUrl, guard, init_task_of.
  destruct t as [o c p]. simpl.
  destruct c, b; simpl; repeat case_match; simplify_eq; simpl;
    rewrite ?fetches_app; simpl;
    (split; [done|]); (split; [|split; [done|lia]]);
    intros i; rewrite ?guard_alter; done.
Qed.

(** The same for the start of [initBackground]. *)
Lemma initBackground_frame (i : nat) (w : World) :
  tasks (initBackground i w).2 = tasks w /\
  (forall j, guard j (initBackground i w).2 = guard j w) /\
  (forall j, init_task_of j (initBackground i w).1 = Nat.eqb i j) /\
  (fetches (trace (initBackground i w).2)
   = fetches (trace w) + fetched (pc (initBackground i w).1))%nat.
Proof.
  unfold initBackground.
  destruct (getCachedBackground w) as [cached w0] eqn:Hread.
  assert (tasks w0 = tasks w /\ providers w0 = providers w /\
          fetches (trace w0) = fetches (trace w)) as (Ht & Hp & Hf).
  { destruct (getCachedBackground_state w) as [Hsame|[_ Hdel]];
      rewrite Hread in *; simpl in *; subst w0; [done|].
    simpl. rewrite fetches_app. simpl. repeat split; lia. }
  unfold initBackground_fallback, fetchNewBackground, preloadImage, guard,
    init_task_of.
  destruct (truthy cached); simpl; rewrite ?fetches_app; simpl;
    rewrite Ht, Hp, Hf; repeat split; try done; try lia;
    intros j; by rewrite andb_true_r.
Qed.

Lemma single_flight_init (now : Z) (m : gmap string string) :
  single_flight (World_init now m).
Proof. split; [|done]. intros i. unfold guard. simpl. by destruct i. Qed.

Lemma guard_set_isInitializing (i j : nat) (b : bool) (w : World) (p : Provider) :
  providers w !! i = Some p ->
  guard j (set_isInitializing i b w) = if decide (i = j) then b else guard j w.
Proof.
  intros Hp. unfold guard, set_isInitializing. simpl.
  destruct (decide (i = j)) as [->|Hne].
  - rewrite list_lookup_alter_eq. rewrite Hp in *. done.
  - by rewrite list_lookup_alter_ne.
Qed.

Lemma guard_mount (i : nat) (w : World) :
  guard i (BackgroundProvider_mount w) = guard i w.
Proof.
  unfold guard, BackgroundProvider_mount. simpl.
  destruct (decide (i < length (providers w))%nat) as [Hlt|Hge].
  - by rewrite lookup_app_l.
  - rewrite lookup_app_r by lia.
    rewrite (lookup_ge_None_2 (providers w) i) by lia.
    by destruct (i - length (providers w))%nat as [|[|k]].
Qed.

(** Every turn of the event loop keeps the invariant. *)
Lemma step_single_flight (ev : Event) (w w' : World) :
  single_flight w -> step ev w = Some w' -> single_flight w'.
Proof.
  intros [Hinit Hfetch] Hstep.
  destruct ev as [d| |i|i|i|n e]; simpl in Hstep.
  - destruct (0 <=? d); by simplify_eq.
  - simplify_eq. split; [|done]. intros i. rewrite guard_mount. apply Hinit.
  - destruct (decide (i < length (providers w))%nat); simplify_eq.
    unfold BackgroundProvider_effect.
    destruct (providers w !! i) as [p|] eqn:Hp; [|done].
    destruct (truthy (globalBackgroundUrl w)).
    { split; [|done]. intros j. specialize (Hinit j).
      unfold initializations, guard, setIsLoaded, setBackgroundUrl in *. simpl.
      by rewrite !guard_alter. }
    destruct (isInitializing p) eqn:Hguard; [done|].
    pose proof (initBackground_frame i (set_isInitializing i true w))
      as (Ht & Hg & Hk & Hf).
    destruct (initBackground i (set_isInitializing i true w)) as [t w1].
    simpl in Ht, Hg, Hk, Hf. split.
    + intros j. unfold initializations. simpl. rewrite Ht. simpl.
      rewrite count_tasks_app. simpl. rewrite Hk.
      change (guard j (set_tasks (tasks w ++ [t]) w1)) with (guard j w1).
      rewrite Hg, (guard_set_isInitializing i j true w p Hp).
      specialize (Hinit j). unfold initializations in Hinit.
      destruct (decide (i = j)) as [->|Hne].
      * rewrite Nat.eqb_refl. unfold guard in Hinit. rewrite Hp in Hinit.
        simpl in Hinit. rewrite Hguard in Hinit. lia.
      * apply Nat.eqb_neq in Hne. rewrite Hne. lia.
    + simpl. rewrite Hf, Ht. simpl. rewrite fetched_sum_app. simpl. lia.
  - destruct (decide (i < length (providers w))%nat); simplify_eq.
    split; [|done]. intros j. specialize (Hinit j).
    unfold initializations, guard, setLoaded, setIsLoaded in *. simpl.
    by rewrite guard_alter.
  - destruct (decide (i < length (providers w))%nat); simplify_eq.
    split.
    + intros j. specialize (Hinit j). unfold initializations, guard in *. simpl.
      rewrite count_tasks_app. simpl. unfold init_task_of. simpl.
      rewrite andb_false_r, !Nat.add_0_r. exact Hinit.
    + simpl. rewrite !fetches_app, fetched_sum_app. simpl. lia.
  - destruct (tasks w !! n) as [t|] eqn:Hn; simpl in Hstep; [|done].
    destruct (preloadImage_handler (clock w) e (probe t)) as [p'|];
      simpl in Hstep; [|done].
    assert (single_flight
              (set_tasks (<[n := {| owner := owner t; pc := pc t; probe := p' |}]> (tasks w)) w))
      as Hsame.
    { split.
      - intros j. specialize (Hinit j). unfold initializations, guard in *. simpl.
        by rewrite (count_tasks_insert _ _ _ t).
      - simpl.
        pose proof (fetched_sum_insert (tasks w) n t
                      {| owner := owner t; pc := pc t; probe := p' |} Hn).
        simpl in *. lia. }
    destruct (promise (probe t)); [|by simplify_eq|by simplify_eq].
    destruct (promise p') as [|isValid|]; [by simplify_eq| |by simplify_eq].
    pose proof (resume_frame {| owner := owner t; pc := pc t; probe := p' |} isValid w)
      as (Ht & Hg & Hk & Hf).
    destruct (resume {| owner := owner t; pc := pc t; probe := p' |} isValid w)
      as [t'' w1].
    simpl in Ht, Hg, Hk, Hf. simplify_eq. split.
    + intros j. specialize (Hinit j). unfold initializations in *. simpl.
      rewrite Ht.
      change (guard j (set_tasks (<[n:=t'']> (tasks w)) w1)) with (guard j w1).
      rewrite Hg. rewrite (count_tasks_insert _ _ _ t); [done|done|].
      by rewrite Hk.
    + simpl. rewrite Ht.
      pose proof (fetched_sum_insert (tasks w) n t t'' Hn). lia.
Qed.

Lemma run_single_flight (evs : list Event) (w w' : World) :
  single_flight w -> run evs w = Some w' -> single_flight w'.
Proof.
  revert w. induction evs as [|ev evs IH]; intros w Hw Hrun; simpl in Hrun.
  - by simplify_eq.
  - destruct (step ev w) as [w1|] eqn:Hstep; simpl in Hrun; [|done].
    eauto using step_single_flight.
Qed.

End Guard.

(** C7 (amended): the re-entry guard is a [useRef] of the provider
    instance, so the bound is per instance.  From process start, whatever
    sequence of mounts, effect runs, [setLoaded] and refresh calls, image
    callbacks and delays occurs, every provider instance has started at most
    one initialisation sequence (exactly one if its guard is set, none
    otherwise), and no more candidate URLs were generated than there are
    tasks: each initialisation or refresh issues at most one fallback
    fetch. *)
Theorem single_flight_per_provider {P : Platform} (now : Z)
    (m : gmap string string) (evs : list Event) (w : World) :
  run evs (World_init now m) = Some w ->
  (forall i : nat,
     (initializations i w <= 1)%nat /\
     (initializations i w = 1%nat <-> guard i w = true)) /\
  (fetches (trace w) <= length (tasks w))%nat.
Proof.
  intros Hrun.
  destruct (run_single_flight evs _ w (single_flight_init now m) Hrun)
    as [Hinit Hfetch].
  split.
  - intros i. rewrite (Hinit i). destruct (guard i w); split; try lia; done.
  - pose proof (fetched_sum_length (tasks w)). lia.
Qed.

Lemma single_flight_per_provider_witness :
  exists w : World,
    run (P := Json.platform)
      [EvMount; EvEffect 0; EvEffect 0; EvTick 40; EvEffect 0; EvImage 0 OnError;
       EvEffect 0]
      (World_init 1700000000000 ∅) = Some w /\
    (initializations 0 w <= 1)%nat /\
    (fetches (trace w) <= length (tasks w))%nat.
Proof.
  destruct (run (P := Json.platform)
              [EvMount; EvEffect 0; EvEffect 0; EvTick 40; EvEffect 0;
               EvImage 0 OnError; EvEffect 0]
              (World_init 1700000000000 ∅)) as [w|] eqn:Hrun.
  - exists w. split; [reflexivity|].
    destruct (single_flight_per_provider (P := Json.platform) _ _ _ w Hrun)
      as [Hinit Hfetch].
    split; [apply Hinit|apply Hfetch].
  - vm_compute in Hrun. discriminate.
Defined.

(** C7 as stated fails with two provider instances: both are mounted and
    both effects run before any probe has settled; each instance finds the
    singleton empty and its own guard unset, so two initialisation sequences
    run and two candidate URLs are generated and probed. *)
Lemma two_providers_two_initializations :
  exists w : World,
    run (P := Json.platform) [EvMount; EvMount; EvEffect 0; EvEffect 1]
      (World_init 1700000000000 ∅) = Some w /\
    initializations 0 w = 1%nat /\
    initializations 1 w = 1%nat /\
    trace w = [EGenerated "https://loliapi.com/acg/?1700000000000";
               EImageLoad (JStr "https://loliapi.com/acg/?1700000000000");
               EGenerated "https://loliapi.com/acg/?1700000000000";
               EImageLoad (JStr "https://loliapi.com/acg/?1700000000000")].
Proof.
  eexists. split; [vm_compute; reflexivity|]. by vm_compute.
Qed.





(** * Further properties of the module *)

(** ** CacheStore: misses, and what a read or a write can change *)

(** X1: a read returns [null] and leaves everything as it is when there is
    no [window], when the key is absent, when the stored text is empty, when
    it is not JSON, or when it is the JSON text [null] (reading
    [data.timestamp] throws, and the exception is caught). *)
Theorem getCachedBackground_miss {P : Platform} (w : World) :
  has_window w = false \/
  storage w !! BG_CACHE_KEY = None \/
  storage w !! BG_CACHE_KEY = Some "" \/
  (exists s : string,
     storage w !! BG_CACHE_KEY = Some s /\
     (JSON_parse s = None \/ JSON_parse s = Some JNull)) ->
  getCachedBackground w = (JNull, w).
Proof.
  unfold getCachedBackground, getCachedBackground_try, localStorage_getItem.
  intros [Hwin|[Hnone|[Hempty|(s & Hsto & Hparse)]]].
  - by rewrite Hwin.
  - rewrite Hnone. by destruct (has_window w).
  - rewrite Hempty. by destruct (has_window w).
  - rewrite Hsto. destruct (has_window w); [|done]. simpl.
    destruct (String.eqb s ""); [done|].
    by destruct Hparse as [->| ->].
Qed.

Lemma getCachedBackground_miss_witness :
  let w := World_init 1700000000000 {[BG_CACHE_KEY := "{oops"]} in
  getCachedBackground (P := Json.platform) w = (JNull, w) /\
  storage w !! BG_CACHE_KEY = Some "{oops".
Proof.
  intros w.
  assert (storage w !! BG_CACHE_KEY = Some "{oops") as Hsto
    by (vm_compute; reflexivity).
  assert (JSON_parse (Platform := Json.platform) "{oops" = None) as Hparse
    by (vm_compute; reflexivity).
  split; [|exact Hsto].
  apply (getCachedBackground_miss (P := Json.platform) w).
  right. right. right. exists "{oops". split; [exact Hsto|by left].
Defined.


Section StorageFrame.
Context {P : Platform}.

(** The start of [initBackground] leaves storage alone or deletes the key. *)
Lemma initBackground_storage (i : nat) (w : World) :
  storage (initBackground i w).2 = storage w \/
  storage (initBackground i w).2 = delete BG_CACHE_KEY (storage w).
Proof.
  unfold initBackground.
  destruct (getCachedBackground w) as [cached w0] eqn:Hread.
  assert (storage w0 = storage w \/ storage w0 = delete BG_CACHE_KEY (storage w))
    as Hsto.
  { destruct (getCachedBackground_state w) as [Hsame|[_ Hdel]];
      rewrite Hread in *; simpl in *; subst w0; [by left|by right]. }
  unfold initBackground_fallback, fetchNewBackground, preloadImage.
  by destruct (truthy cached).
Qed.

(** What a continuation can do to storage: nothing, delete the key (the
    cached URL failed its probe), or write the record of the URL whose
    probe has just succeeded. *)
Lemma resume_storage (t : Task) (isValid : bool) (w : World) :
  storage (resume t isValid w).2 = storage w \/
  storage (resume t isValid w).2 = delete BG_CACHE_KEY (storage w) \/
  (isValid = true /\
   exists u : string,
     (pc t = AwaitNew u \/ pc t = AwaitRefresh u) /\
     storage (resume t isValid w).2
     = <[BG_CACHE_KEY := JSON_stringify (cache_record u (clock w))]> (storage w)).
Proof.
  unfold resume, initBackground_finish, initBackground_fallback,
    fetchNewBackground, preloadImage, setCachedBackground, localStorage_setItem,
    localStorage_removeItem, setIsLoaded, setBackgroundUrl.
  destruct t as [o c p]. simpl.
  destruct c as [cached|u|u| |], isValid; simpl;
    repeat case_match; simplify_eq; simpl; try (by left); try (by right; left).
  all: right; right; split; [done|]; exists u;
    split; [(by left) || (by right)|done].
Qed.

(** A pending promise is resolved to [true] only by the [load] callback. *)
Lemma preloadImage_handler_true (now : Z) (e : ImgEvent) (p p' : Probe) :
  preloadImage_handler now e p = Some p' ->
  promise p = Pending ->
  promise p' = Resolved true ->
  e = OnLoad.
Proof.
  unfold preloadImage_handler. intros Hh Hpend Hres.
  destruct e; [done|..]; repeat case_match; simplify_eq; simpl in *;
    rewrite Hpend in Hres; discriminate.
Qed.

(** What one turn of the event loop can do to storage. *)
Lemma step_storage (ev : Event) (w w' : World) :
  step ev w = Some w' ->
  storage w' = storage w \/
  storage w' = delete BG_CACHE_KEY (storage w) \/
  exists (n : nat) (t : Task) (u : string),
    ev = EvImage n OnLoad /\
    tasks w !! n = Some t /\
    promise (probe t) = Pending /\
    (pc t = AwaitNew u \/ pc t = AwaitRefresh u) /\
    storage w' = <[BG_CACHE_KEY := JSON_stringify (cache_record u (clock w))]> (storage w).
Proof.
  intros Hstep. destruct ev as [d| |i|i|i|n e]; simpl in Hstep.
  - destruct (0 <=? d); simplify_eq. by left.
  - simplify_eq. by left.
  - destruct (decide (i < length (providers w))%nat); simplify_eq.
    unfold BackgroundProvider_effect.
    destruct (providers w !! i) as [p|]; [|by left].
    destruct (truthy (globalBackgroundUrl w)); [by left|].
    destruct (isInitializing p); [by left|].
    pose proof (initBackground_storage i (set_isInitializing i true w)) as Hsto.
    destruct (initBackground i (set_isInitializing i true w)) as [t w1].
    simpl in *. destruct Hsto as [->| ->]; [by left|by right; left].
  - destruct (decide (i < length (providers w))%nat); simplify_eq. by left.
  - destruct (decide (i < length (providers w))%nat); simplify_eq. by left.
  - destruct (tasks w !! n) as [t|] eqn:Hn; simpl in Hstep; [|done].
    destruct (preloadImage_handler (clock w) e (probe t)) as [p'|] eqn:Hh;
      simpl in Hstep; [|done].
    destruct (promise (probe t)) eqn:Hpend;
      [|simplify_eq; by left|simplify_eq; by left].
    destruct (promise p') as [|isValid|] eqn:Hres;
      [simplify_eq; by left| |simplify_eq; by left].
    pose proof (resume_storage {| owner := owner t; pc := pc t; probe := p' |}
                  isValid w) as Hsto.
    destruct (resume {| owner := owner t; pc := pc t; probe := p' |} isValid w)
      as [t'' w1].
    simpl in Hsto. simplify_eq. simpl.
    destruct Hsto as [->|[->|(-> & u & Hpc & ->)]]; [by left|by right; left|].
    right. right. exists n, t, u.
    by rewrite (preloadImage_handler_true _ _ _ _ Hh Hpend Hres).
Qed.

End StorageFrame.

(** X3: the module only ever touches its own key: whatever events occur,
    every other key of [localStorage] holds at the end what it held at the
    start. *)
Theorem run_storage_other_keys {P : Platform} (evs : list Event) (w w' : World)
    (k : string) :
  k <> BG_CACHE_KEY ->
  run evs w = Some w' ->
  storage w' !! k = storage w !! k.
Proof.
  intros Hk. revert w. induction evs as [|ev evs IH]; intros w Hrun;
    simpl in Hrun; [by simplify_eq|].
  destruct (step ev w) as [w1|] eqn:Hstep; simpl in Hrun; [|done].
  rewrite (IH w1 Hrun).
  destruct (step_storage ev w w1 Hstep) as [->|[->|(n & t & u & _ & _ & _ & _ & ->)]].
  - done.
  - by rewrite lookup_delete_ne.
  - by rewrite lookup_insert_ne.
Qed.

Lemma run_storage_other_keys_witness :
  exists w' : World,
    run (P := Json.platform)
      [EvMount; EvEffect 0; EvTick 120; EvImage 0 OnLoad; EvRefresh 0;
       EvImage 1 OnError]
      (World_init 1700000000000 {[ "theme" := "dark" ]}) = Some w' /\
    storage w' !! "theme" = Some "dark".
Proof.
  destruct (run (P := Json.platform)
              [EvMount; EvEffect 0; EvTick 120; EvImage 0 OnLoad; EvRefresh 0;
               EvImage 1 OnError]
              (World_init 1700000000000 {[ "theme" := "dark" ]})) as [w'|] eqn:Hrun.
  - exists w'. split; [reflexivity|].
    assert ("theme" <> BG_CACHE_KEY) as Hk by discriminate.
    rewrite (run_storage_other_keys (P := Json.platform) _ _ w' "theme" Hk Hrun).
    vm_compute. reflexivity.
  - vm_compute in Hrun. discriminate.
Defined.

(** X4: the cache is written only with a URL that has just passed its
    probe.  If after one turn of the event loop the key holds a text it did
    not hold before, then that turn was the [load] callback of a pending
    probe of a generated candidate ([initBackground] fallback or
    [refreshBackground]), and the text is the record of that candidate with
    the current time. *)
Theorem cache_written_only_after_load {P : Platform} (ev : Event) (w w' : World)
    (v : string) :
  step ev w = Some w' ->
  storage w' !! BG_CACHE_KEY = Some v ->
  storage w !! BG_CACHE_KEY <> Some v ->
  exists (n : nat) (t : Task) (u : string),
    ev = EvImage n OnLoad /\
    tasks w !! n = Some t /\
    promise (probe t) = Pending /\
    (pc t = AwaitNew u \/ pc t = AwaitRefresh u) /\
    v = JSON_stringify (cache_record u (clock w)).
Proof.
  intros Hstep Hnew Hold.
  destruct (step_storage ev w w' Hstep)
    as [Hsame|[Hdel|(n & t & u & Hev & Hn & Hpend & Hpc & Hins)]].
  - by rewrite Hsame in Hnew.
  - by rewrite Hdel, lookup_delete_eq in Hnew.
  - exists n, t, u. repeat split; try done.
    rewrite Hins, lookup_insert_eq in Hnew. by simplify_eq.
Qed.

Lemma cache_written_only_after_load_witness :
  exists (w w' : World) (v : string),
    run (P := Json.platform) [EvMount; EvEffect 0; EvTick 120]
      (World_init 1700000000000 ∅) = Some w /\
    step (P := Json.platform) (EvImage 0 OnLoad) w = Some w' /\
    storage w' !! BG_CACHE_KEY = Some v /\
    v = Json.stringify
          (cache_record "https://loliapi.com/acg/?1700000000000" 1700000000120).
Proof.
  destruct (run (P := Json.platform) [EvMount; EvEffect 0; EvTick 120]
              (World_init 1700000000000 ∅)) as [w|] eqn:Hrun;
    [|vm_compute in Hrun; discriminate].
  destruct (step (P := Json.platform) (EvImage 0 OnLoad) w) as [w'|] eqn:Hstep;
    [|vm_compute in Hrun; injection Hrun as <-; vm_compute in Hstep; discriminate].
  destruct (storage w' !! BG_CACHE_KEY) as [v|] eqn:Hnew;
    [|vm_compute in Hrun; injection Hrun as <-;
      vm_compute in Hstep; injection Hstep as <-;
      vm_compute in Hnew; discriminate].
  assert (storage w !! BG_CACHE_KEY <> Some v) as Hold.
  { vm_compute in Hrun. injection Hrun as <-. vm_compute. discriminate. }
  destruct (cache_written_only_after_load (P := Json.platform)
              (EvImage 0 OnLoad) w w' v Hstep Hnew Hold)
    as (n & t & u & Hev & Hn & _ & Hpc & Hv).
  injection Hev as <-.
  exists w, w', v. split; [reflexivity|]. split; [exact Hstep|].
  split; [exact Hnew|].
  rewrite Hv.
  vm_compute in Hrun. injection Hrun as <-.
  vm_compute in Hn. injection Hn as <-.
  destruct Hpc as [Hpc|Hpc]; vm_compute in Hpc; [injection Hpc as <-|discriminate].
  vm_compute. reflexivity.
Defined.

(** ** fetchNewBackground: the candidate URL *)

(** A candidate URL is never the empty string. *)
Lemma fetchNewBackground_url_truthy (now : Z) :
  truthy (JStr (fetchNewBackground_url now)) = true.
Proof. reflexivity. Qed.

(** X5: candidates generated at different times are different URLs (the
    time in the query string defeats HTTP caching), and every candidate is a
    non-empty string. *)
Theorem fetchNewBackground_url_distinct (t1 t2 : Z) :
  t1 <> t2 ->
  fetchNewBackground_url t1 <> fetchNewBackground_url t2 /\
  truthy (JStr (fetchNewBackground_url t1)) = true.
Proof.
  intros Hne. split; [|apply fetchNewBackground_url_truthy].
  unfold fetchNewBackground_url. intros Heq.
  apply (inj (String.append _)) in Heq.
  apply (inj pretty) in Heq. done.
Qed.

Lemma fetchNewBackground_url_distinct_witness :
  fetchNewBackground_url 1700000000000 <> fetchNewBackground_url 1700000000001.
Proof.
  assert (1700000000000 <> 1700000000001) as Hne by discriminate.
  exact (proj1 (fetchNewBackground_url_distinct _ _ Hne)).
Defined.

(** ** initBackground: the fallback *)

(** X6: when the read yields nothing to probe and the probe of the
    generated candidate succeeds, in a browser whose storage takes the
    write, [initBackground] ends with [finalUrl] the candidate, publishes it
    as the singleton URL without touching the loaded flag, and stores the
    record of the candidate with the time of the write; a read right after
    returns the candidate (on a platform that reads back the record it
    serialised). *)
Theorem initBackground_fallback_success {P : Platform} (net : Network) (i : nat)
    (w : World) (d : nat) :
  has_window w = true ->
  storage_full w = false ->
  truthy (getCachedBackground w).1 = false ->
  net (clock w) (JStr (fetchNewBackground_url (clock w))) = (OnLoad, d) ->
  let newUrl := fetchNewBackground_url (clock w) in
  exists (t : Task) (w' : World),
    initBackground_alone net i w = (t, w') /\
    finalUrl t = Some (JStr newUrl) /\
    globalBackgroundUrl w' = JStr newUrl /\
    globalIsLoaded w' = globalIsLoaded w /\
    clock w' = clock w + Z.of_nat d /\
    storage w' !! BG_CACHE_KEY
      = Some (JSON_stringify (cache_record newUrl (clock w'))) /\
    (JSON_parse (JSON_stringify (cache_record newUrl (clock w')))
       = Some (cache_record newUrl (clock w')) ->
     getCachedBackground w' = (JStr newUrl, w')).
Proof.
  intros Hwin Hfull Hfalsy Hnet newUrl. subst newUrl.
  destruct (getCachedBackground w) as [cached w0] eqn:Hread.
  assert (has_window w0 = true /\ storage_full w0 = false /\
          clock w0 = clock w /\ globalIsLoaded w0 = globalIsLoaded w)
    as (Hwin0 & Hfull0 & Hclock0 & Hloaded0).
  { destruct (getCachedBackground_state w) as [Hsame|[_ Hdel]];
      rewrite Hread in *; simpl in *; by subst w0. }
  simpl in Hfalsy.
  pose proof (fetchNewBackground_url_truthy (clock w)) as Hu.
  set (u := fetchNewBackground_url (clock w)) in *.
  pose (t1 := {| owner := i; pc := AwaitNew u;
                 probe := {| img_src := JStr u;
                             timer := Some (clock w + BG_LOAD_TIMEOUT);
                             promise := Pending |} |}).
  pose (w1 := log (EImageLoad (JStr u)) (log (EGenerated u) w0)).
  assert (initBackground i w = (t1, w1)) as Hstart.
  { rewrite (initBackground_uncached i w w0 cached Hread Hfalsy).
    unfold initBackground_fallback, fetchNewBackground, preloadImage.
    simpl. rewrite Hclock0. reflexivity. }
  clearbody u.
  assert (await net (t1, w1)
          = resume {| owner := i; pc := AwaitNew u; probe := settled OnLoad (probe t1) |}
              true (set_clock (clock w + Z.of_nat d) w1)) as Hawait.
  { rewrite (await_pending net t1 w1 OnLoad d); simpl; rewrite ?Hclock0; done. }
  unfold initBackground_alone. rewrite Hstart, Hawait.
  unfold resume, initBackground_finish. simpl pc. cbv iota. rewrite Hu.
  rewrite setCachedBackground_stored by done.
  erewrite await_done by done.
  do 2 eexists. split; [reflexivity|].
  do 2 (split; [done|]).
  split; [done|].
  split; [done|].
  split; [simpl; apply lookup_insert_eq|].
  intros Hrt.
  match goal with
  | |- getCachedBackground ?w' = _ =>
      rewrite (getCachedBackground_record w' _ _ (JStr u) (clock w')
                 Hwin0 (lookup_insert_eq _ _ _) Hrt eq_refl eq_refl)
  end.
  assert (forall x : Z, (BG_EXPIRE_TIME <? x - x) = false) as Hzero.
  { intros x. apply Z.ltb_ge. unfold BG_EXPIRE_TIME. lia. }
  by rewrite Hzero.
Qed.

Lemma initBackground_fallback_success_witness :
  let T := 1700000000000 in
  let net : Network := fun _ _ => (OnLoad, 80%nat) in
  let newUrl := "https://loliapi.com/acg/?1700000000000" in
  exists (t : Task) (w' : World),
    initBackground_alone (P := Json.platform) net 0 (World_init T ∅) = (t, w') /\
    finalUrl t = Some (JStr newUrl) /\
    getCachedBackground (P := Json.platform) w' = (JStr newUrl, w').
Proof.
  intros T net newUrl.
  set (w := World_init T ∅).
  assert (has_window w = true) as Hwin by (vm_compute; reflexivity).
  assert (storage_full w = false) as Hfull by (vm_compute; reflexivity).
  assert (truthy (getCachedBackground (P := Json.platform) w).1 = false)
    as Hfalsy by (vm_compute; reflexivity).
  assert (net (clock w) (JStr (fetchNewBackground_url (clock w))) = (OnLoad, 80%nat))
    as Hnet by reflexivity.
  destruct (initBackground_fallback_success (P := Json.platform) net 0 w 80%nat
              Hwin Hfull Hfalsy Hnet)
    as (t & w' & Hrun & Hfinal & _ & _ & Hclock & _ & Hreadable).
  assert (fetchNewBackground_url (clock w) = newUrl) as Hnew
    by (vm_compute; reflexivity).
  rewrite Hnew in Hfinal, Hreadable.
  exists t, w'. split; [exact Hrun|]. split; [exact Hfinal|].
  apply Hreadable. rewrite Hclock.
  apply (parse_stringify_record newUrl (clock w + Z.of_nat 80)).
Defined.

(** ** SharedState: the singleton over the life of the process *)

Section Singleton.
Context {P : Platform}.

Lemma initBackground_globals (i : nat) (w : World) :
  globalBackgroundUrl (initBackground i w).2 = globalBackgroundUrl w /\
  globalIsLoaded (initBackground i w).2 = globalIsLoaded w /\
  providers (initBackground i w).2 = providers w /\
  is_init (pc (initBackground i w).1) = true.
Proof.
  unfold initBackground.
  destruct (getCachedBackground w) as [cached w0] eqn:Hread.
  assert (globalBackgroundUrl w0 = globalBackgroundUrl w /\
          globalIsLoaded w0 = globalIsLoaded w /\
          providers w0 = providers w) as (Hg & Hl & Hp).
  { destruct (getCachedBackground_state w) as [Hsame|[_ Hdel]];
      rewrite Hread in *; simpl in *; by subst w0. }
  unfold initBackground_fallback, fetchNewBackground, preloadImage.
  by destruct (truthy cached).
Qed.

Lemma resume_is_init (t : Task) (b : bool) (w : World) :
  is_init (pc (resume t b w).1) = is_init (pc t).
Proof.
  unfold resume, initBackground_finish, initBackground_fallback,
    fetchNewBackground, preloadImage.
  destruct t as [o c p]. simpl. by destruct c, b.
Qed.

(** A continuation keeps the URL variables well formed, and never unsets a
    singleton that is set. *)
Lemma resume_urls_ok (t : Task) (b : bool) (w : World) :
  null_or_truthy (globalBackgroundUrl w) ->
  Forall (fun p => empty_or_truthy (backgroundUrl p)) (providers w) ->
  refresh_url_ok t ->
  null_or_truthy (globalBackgroundUrl (resume t b w).2) /\
  Forall (fun p => empty_or_truthy (backgroundUrl p)) (providers (resume t b w).2) /\
  refresh_url_ok (resume t b w).1 /\
  (truthy (globalBackgroundUrl w) = true ->
   truthy (globalBackgroundUrl (resume t b w).2) = true).
Proof.
  intros Hglobal Hprov Htask.
  unfold resume, initBackground_finish, initBackground_fallback,
    fetchNewBackground, preloadImage, setCachedBackground, localStorage_setItem,
    localStorage_removeItem, setIsLoaded, setBackgroundUrl, refresh_url_ok in *.
  destruct t as [o c p]. simpl in *.
  destruct c as [cached|u|u|f|v], b; simpl;
    repeat case_match; simplify_eq; simpl;
    repeat split; try done;
    try (by right);
    repeat (apply Forall_alter; [|intros; simpl; (by right) || done]);
    done.
Qed.

(** Every turn of the event loop keeps the URL variables well formed. *)
Lemma step_urls_ok (ev : Event) (w w' : World) :
  urls_ok w -> step ev w = Some w' -> urls_ok w'.
Proof.
  intros (Hglobal & Hprov & Htasks) Hstep.
  destruct ev as [d| |i|i|i|n e]; simpl in Hstep.
  - destruct (0 <=? d); by simplify_eq.
  - simplify_eq. split; [done|]. split; [|done]. simpl.
    apply Forall_app. split; [done|]. apply Forall_singleton. simpl.
    unfold js_or. destruct (truthy (globalBackgroundUrl w)) eqn:Ht;
      [by right|by left].
  - destruct (decide (i < length (providers w))%nat); simplify_eq.
    unfold BackgroundProvider_effect.
    destruct (providers w !! i) as [p|]; [|done].
    destruct (truthy (globalBackgroundUrl w)) eqn:Ht.
    { split; [done|]. split; [|done]. simpl.
      repeat (apply Forall_alter; [|intros; simpl; (by right) || done]). done. }
    destruct (isInitializing p); [done|].
    pose proof (initBackground_globals i (set_isInitializing i true w))
      as (Hg & _ & Hp & Hinit).
    pose proof (initBackground_frame i (set_isInitializing i true w))
      as (Ht' & _).
    destruct (initBackground i (set_isInitializing i true w)) as [t w1].
    simpl in *. unfold urls_ok. simpl. split; [by rewrite Hg|]. split.
    + rewrite Hp. by apply Forall_alter.
    + rewrite Ht'. apply Forall_app. split; [done|]. apply Forall_singleton.
      unfold refresh_url_ok. by destruct (pc t).
  - destruct (decide (i < length (providers w))%nat); simplify_eq.
    split; [done|]. split; [|done]. simpl. by apply Forall_alter.
  - destruct (decide (i < length (providers w))%nat); simplify_eq.
    split; [done|]. split; [done|]. simpl.
    apply Forall_app. split; [done|]. apply Forall_singleton.
    apply fetchNewBackground_url_truthy.
  - destruct (tasks w !! n) as [t|] eqn:Hn; simpl in Hstep; [|done].
    destruct (preloadImage_handler (clock w) e (probe t)) as [p'|];
      simpl in Hstep; [|done].
    assert (refresh_url_ok t) as Ht by (by eapply Forall_lookup_1).
    assert (urls_ok (set_tasks (<[n := {| owner := owner t; pc := pc t; probe := p' |}]>
                                  (tasks w)) w)) as Hsame.
    { split; [done|]. split; [done|]. simpl. by apply Forall_insert. }
    destruct (promise (probe t)); [|by simplify_eq|by simplify_eq].
    destruct (promise p') as [|isValid|]; [by simplify_eq| |by simplify_eq].
    pose proof (resume_urls_ok {| owner := owner t; pc := pc t; probe := p' |}
                  isValid w Hglobal Hprov Ht) as (Hg & Hp & Ht'' & _).
    pose proof (resume_frame {| owner := owner t; pc := pc t; probe := p' |} isValid w)
      as (Hts & _).
    destruct (resume {| owner := owner t; pc := pc t; probe := p' |} isValid w)
      as [t'' w1].
    simpl in *. simplify_eq. unfold urls_ok. simpl.
    split; [done|]. split; [done|].
    rewrite Hts. by apply Forall_insert.
Qed.

Lemma run_urls_ok (evs : list Event) (w w' : World) :
  urls_ok w -> run evs w = Some w' -> urls_ok w'.
Proof.
  revert w. induction evs as [|ev evs IH]; intros w Hw Hrun; simpl in Hrun.
  - by simplify_eq.
  - destruct (step ev w) as [w1|] eqn:Hstep; simpl in Hrun; [|done].
    eauto using step_urls_ok.
Qed.

Lemma urls_ok_init (now : Z) (m : gmap string string) :
  urls_ok (World_init now m).
Proof. split; [by left|]. split; constructor. Qed.

End Singleton.

(** X7: from process start, whatever events occur, the singleton URL is
    [null] or truthy, never the empty string, and the [backgroundUrl] every
    provider hands to its consumers is the empty string or truthy, never
    [null] or [undefined]. *)
Theorem background_urls_well_formed {P : Platform} (now : Z)
    (m : gmap string string) (evs : list Event) (w : World) :
  run evs (World_init now m) = Some w ->
  null_or_truthy (globalBackgroundUrl w) /\
  forall (i : nat) (p : Provider),
    providers w !! i = Some p -> empty_or_truthy (backgroundUrl p).
Proof.
  intros Hrun.
  destruct (run_urls_ok evs _ w (urls_ok_init now m) Hrun) as (Hg & Hp & _).
  split; [done|]. intros i p Hi. by eapply (Forall_lookup_1 _ _ _ _ Hp).
Qed.

Lemma background_urls_well_formed_witness :
  exists w : World,
    run (P := Json.platform)
      [EvMount; EvEffect 0; EvImage 0 OnError; EvMount; EvRefresh 1; EvTick 30;
       EvImage 1 OnLoad; EvEffect 1]
      (World_init 1700000000000 ∅) = Some w /\
    null_or_truthy (globalBackgroundUrl w).
Proof.
  destruct (run (P := Json.platform)
              [EvMount; EvEffect 0; EvImage 0 OnError; EvMount; EvRefresh 1;
               EvTick 30; EvImage 1 OnLoad; EvEffect 1]
              (World_init 1700000000000 ∅)) as [w|] eqn:Hrun.
  - exists w. split; [reflexivity|].
    exact (proj1 (background_urls_well_formed (P := Json.platform) _ _ _ w Hrun)).
  - vm_compute in Hrun. discriminate.
Defined.

(** Once the singleton URL is set, one more turn of the event loop leaves it
    set and starts no initialisation. *)
Lemma step_singleton_set {P : Platform} (ev : Event) (w w' : World) :
  urls_ok w ->
  truthy (globalBackgroundUrl w) = true ->
  step ev w = Some w' ->
  truthy (globalBackgroundUrl w') = true /\
  initializations_total w' = initializations_total w.
Proof.
  intros (Hglobal & Hprov & Htasks) Hset Hstep.
  unfold initializations_total.
  destruct ev as [d| |i|i|i|n e]; simpl in Hstep.
  - destruct (0 <=? d); by simplify_eq.
  - by simplify_eq.
  - destruct (decide (i < length (providers w))%nat); simplify_eq.
    unfold BackgroundProvider_effect.
    destruct (providers w !! i) as [p|]; [|done]. by rewrite Hset.
  - destruct (decide (i < length (providers w))%nat); by simplify_eq.
  - destruct (decide (i < length (providers w))%nat); simplify_eq.
    split; [done|]. simpl. rewrite count_tasks_app. simpl. lia.
  - destruct (tasks w !! n) as [t|] eqn:Hn; simpl in Hstep; [|done].
    destruct (preloadImage_handler (clock w) e (probe t)) as [p'|];
      simpl in Hstep; [|done].
    assert (refresh_url_ok t) as Ht by (by eapply Forall_lookup_1).
    assert (count_tasks (fun t0 => is_init (pc t0))
              (<[n := {| owner := owner t; pc := pc t; probe := p' |}]> (tasks w))
            = count_tasks (fun t0 => is_init (pc t0)) (tasks w)) as Hsame
      by (by apply (count_tasks_insert _ _ _ t)).
    destruct (promise (probe t)); [|by simplify_eq|by simplify_eq].
    destruct (promise p') as [|isValid|]; [by simplify_eq| |by simplify_eq].
    pose proof (resume_urls_ok {| owner := owner t; pc := pc t; probe := p' |}
                  isValid w Hglobal Hprov Ht) as (_ & _ & _ & Hkeep).
    pose proof (resume_frame {| owner := owner t; pc := pc t; probe := p' |} isValid w)
      as (Hts & _).
    pose proof (resume_is_init {| owner := owner t; pc := pc t; probe := p' |}
                  isValid w) as Hkind.
    destruct (resume {| owner := owner t; pc := pc t; probe := p' |} isValid w)
      as [t'' w1].
    simpl in *. simplify_eq. simpl. split; [by apply Hkeep|].
    rewrite Hts. by apply (count_tasks_insert _ _ _ t).
Qed.

(** X8: once the singleton URL has been set it is never unset, and no
    provider ever starts an initialisation again: from then on, whatever
    events occur (mounts, effects, refreshes with either outcome), the
    singleton URL stays truthy and the number of initialisation sequences
    stays what it was. *)
Theorem singleton_set_forever {P : Platform} (now : Z) (m : gmap string string)
    (before after : list Event) (w w' : World) :
  run before (World_init now m) = Some w ->
  truthy (globalBackgroundUrl w) = true ->
  run after w = Some w' ->
  truthy (globalBackgroundUrl w') = true /\
  initializations_total w' = initializations_total w.
Proof.
  intros Hreach Hset Hrun.
  pose proof (run_urls_ok before _ w (urls_ok_init now m) Hreach) as Hok.
  clear Hreach. revert w Hok Hset Hrun.
  induction after as [|ev evs IH]; intros w Hok Hset Hrun; simpl in Hrun.
  - by simplify_eq.
  - destruct (step ev w) as [w1|] eqn:Hstep; simpl in Hrun; [|done].
    destruct (step_singleton_set ev w w1 Hok Hset Hstep) as [Hset1 Hcount1].
    destruct (IH w1 (step_urls_ok ev w w1 Hok Hstep) Hset1 Hrun) as [Hset' Hcount'].
    split; [done|]. by rewrite Hcount', Hcount1.
Qed.

Lemma singleton_set_forever_witness :
  exists w w' : World,
    run (P := Json.platform) [EvMount; EvEffect 0; EvTick 90; EvImage 0 OnLoad]
      (World_init 1700000000000 ∅) = Some w /\
    run (P := Json.platform)
      [EvMount; EvEffect 1; EvEffect 0; EvRefresh 1; EvTick 20000;
       EvImage 1 OnTimeout; EvMount; EvEffect 2] w = Some w' /\
    truthy (globalBackgroundUrl w') = true /\
    initializations_total w' = 1%nat.
Proof.
  destruct (run (P := Json.platform) [EvMount; EvEffect 0; EvTick 90; EvImage 0 OnLoad]
              (World_init 1700000000000 ∅)) as [w|] eqn:Hrun;
    [|vm_compute in Hrun; discriminate].
  destruct (run (P := Json.platform)
              [EvMount; EvEffect 1; EvEffect 0; EvRefresh 1; EvTick 20000;
               EvImage 1 OnTimeout; EvMount; EvEffect 2] w)
    as [w'|] eqn:Hrun'.
  - assert (truthy (globalBackgroundUrl w) = true /\ initializations_total w = 1%nat)
      as [Hset Hone].
    { vm_compute in Hrun. injection Hrun as <-. split; vm_compute; reflexivity. }
    destruct (singleton_set_forever (P := Json.platform) _ _ _ _ w w' Hrun Hset Hrun')
      as [Hset' Hcount].
    exists w, w'. split; [reflexivity|]. split; [exact Hrun'|].
    split; [exact Hset'|]. by rewrite Hcount.
  - exists w, w. exfalso.
    vm_compute in Hrun. injection Hrun as <-. vm_compute in Hrun'. discriminate.
Defined.

(** X9: a provider mounted when the singleton URL is already set shows it
    at once: after the mount and the first run of its effect the new
    provider holds the singleton URL and the singleton loaded flag, its
    guard is still unset, and nothing else happened: no storage access, no
    image load, no task, no change to the singleton or to other
    providers. *)
Theorem mount_reuses_singleton {P : Platform} (w : World) :
  truthy (globalBackgroundUrl w) = true ->
  run [EvMount; EvEffect (length (providers w))] w
  = Some (set_providers
            (providers w ++
               [{| backgroundUrl := globalBackgroundUrl w;
                   isLoaded := globalIsLoaded w;
                   isInitializing := false |}]) w).
Proof.
  intros Hset. simpl.
  rewrite length_app. simpl.
  destruct (decide (length (providers w) < length (providers w) + 1)%nat); [|lia].
  simpl. unfold BackgroundProvider_effect, BackgroundProvider_mount. simpl.
  rewrite lookup_app_r by lia. rewrite Nat.sub_diag. simpl.
  rewrite Hset. unfold setIsLoaded, setBackgroundUrl, set_providers, js_or. simpl.
  rewrite Hset.
  rewrite (alter_app_r_alt _ (providers w)) by lia.
  rewrite (alter_app_r_alt _ (providers w)) by lia.
  by rewrite Nat.sub_diag.
Qed.

Lemma mount_reuses_singleton_witness :
  exists w w' : World,
    run (P := Json.platform) [EvMount; EvEffect 0; EvTick 90; EvImage 0 OnLoad]
      (World_init 1700000000000 ∅) = Some w /\
    run (P := Json.platform) [EvMount; EvEffect 1] w = Some w' /\
    trace w' = trace w /\
    (backgroundUrl <$> providers w' !! 1%nat)
      = Some (JStr "https://loliapi.com/acg/?1700000000000").
Proof.
  destruct (run (P := Json.platform) [EvMount; EvEffect 0; EvTick 90; EvImage 0 OnLoad]
              (World_init 1700000000000 ∅)) as [w|] eqn:Hrun;
    [|vm_compute in Hrun; discriminate].
  assert (truthy (globalBackgroundUrl w) = true /\ length (providers w) = 1%nat /\
          globalBackgroundUrl w = JStr "https://loliapi.com/acg/?1700000000000")
    as (Hset & Hlen & Hurl).
  { vm_compute in Hrun. injection Hrun as <-. repeat split; vm_compute; reflexivity. }
  pose proof (mount_reuses_singleton (P := Json.platform) w Hset) as Hreuse.
  rewrite Hlen in Hreuse.
  eexists w, _. split; [reflexivity|]. split; [exact Hreuse|].
  split; [reflexivity|]. simpl.
  rewrite lookup_app_r by lia. rewrite Hlen. simpl. by rewrite Hurl.
Defined.

(** ** refreshBackground in the event loop *)

(** The [load] callback of a pending refresh probe publishes its candidate. *)
Lemma step_refresh_load {P : Platform} (n : nat) (t : Task) (u : string) (w : World) :
  tasks w !! n = Some t ->
  pc t = AwaitRefresh u ->
  promise (probe t) = Pending ->
  exists w' : World,
    step (EvImage n OnLoad) w = Some w' /\
    globalBackgroundUrl w' = JStr u /\
    globalIsLoaded w' = false /\
    has_window w' = has_window w /\
    storage_full w' = storage_full w /\
    clock w' = clock w /\
    (has_window w = true -> storage_full w = false ->
     storage w' !! BG_CACHE_KEY = Some (JSON_stringify (cache_record u (clock w)))) /\
    forall k : nat, k <> n -> tasks w' !! k = tasks w !! k.
Proof.
  intros Hn Hpc Hpend. simpl. rewrite Hn. simpl. rewrite Hpend. simpl.
  unfold resume. simpl pc. rewrite Hpc.
  unfold setCachedBackground, localStorage_setItem, setIsLoaded, setBackgroundUrl.
  simpl.
  eexists. split; [reflexivity|]. simpl.
  destruct (has_window w) eqn:Hwin; simpl;
    [destruct (storage_full w) eqn:Hfull; simpl|];
    repeat split; try done;
    try (intros; by rewrite lookup_insert_eq);
    intros k Hk; by rewrite list_lookup_insert_ne.
Qed.

(** X10: refreshes are not mutually exclusive and the last probe to succeed
    wins.  With two refresh probes pending, if the first one loads and then
    the second one loads, the singleton URL is the second candidate, the
    loaded flag is false, and (in a browser whose storage takes writes) the
    cache record is the second candidate's. *)
Theorem refresh_last_load_wins {P : Platform} (n1 n2 : nat) (t1 t2 : Task)
    (u1 u2 : string) (w : World) :
  n1 <> n2 ->
  tasks w !! n1 = Some t1 ->
  tasks w !! n2 = Some t2 ->
  pc t1 = AwaitRefresh u1 ->
  pc t2 = AwaitRefresh u2 ->
  promise (probe t1) = Pending ->
  promise (probe t2) = Pending ->
  exists w' : World,
    run [EvImage n1 OnLoad; EvImage n2 OnLoad] w = Some w' /\
    globalBackgroundUrl w' = JStr u2 /\
    globalIsLoaded w' = false /\
    (has_window w = true -> storage_full w = false ->
     storage w' !! BG_CACHE_KEY = Some (JSON_stringify (cache_record u2 (clock w)))).
Proof.
  intros Hne Hn1 Hn2 Hpc1 Hpc2 Hpend1 Hpend2.
  destruct (step_refresh_load n1 t1 u1 w Hn1 Hpc1 Hpend1)
    as (w1 & Hstep1 & _ & _ & Hwin1 & Hfull1 & Hclock1 & _ & Hothers).
  assert (tasks w1 !! n2 = Some t2) as Hn2' by (rewrite Hothers; done).
  destruct (step_refresh_load n2 t2 u2 w1 Hn2' Hpc2 Hpend2)
    as (w2 & Hstep2 & Hurl & Hloaded & _ & _ & _ & Hcache & _).
  exists w2. split.
  - change (run [EvImage n1 OnLoad; EvImage n2 OnLoad] w)
      with (step (EvImage n1 OnLoad) w ≫= run [EvImage n2 OnLoad]).
    rewrite Hstep1.
    change (Some w1 ≫= run [EvImage n2 OnLoad])
      with (step (EvImage n2 OnLoad) w1 ≫= run []).
    by rewrite Hstep2.
  - split; [done|]. split; [done|]. intros Hwin Hfull.
    rewrite <- Hclock1. apply Hcache; congruence.
Qed.

Lemma refresh_last_load_wins_witness :
  exists w w' : World,
    run (P := Json.platform) [EvMount; EvRefresh 0; EvTick 5; EvRefresh 0; EvTick 50]
      (World_init 1700000000000 ∅) = Some w /\
    run (P := Json.platform) [EvImage 1 OnLoad; EvImage 0 OnLoad] w = Some w' /\
    globalBackgroundUrl w' = JStr "https://loliapi.com/acg/?1700000000000".
Proof.
  destruct (run (P := Json.platform)
              [EvMount; EvRefresh 0; EvTick 5; EvRefresh 0; EvTick 50]
              (World_init 1700000000000 ∅)) as [w|] eqn:Hrun;
    [|vm_compute in Hrun; discriminate].
  assert (exists t0 t1,
            tasks w !! 1%nat = Some t1 /\ tasks w !! 0%nat = Some t0 /\
            pc t1 = AwaitRefresh "https://loliapi.com/acg/?1700000000005" /\
            pc t0 = AwaitRefresh "https://loliapi.com/acg/?1700000000000" /\
            promise (probe t1) = Pending /\ promise (probe t0) = Pending)
    as (t0 & t1 & Hn1 & Hn0 & Hpc1 & Hpc0 & Hpend1 & Hpend0).
  { vm_compute in Hrun. injection Hrun as <-.
    eexists _, _. repeat split; vm_compute; reflexivity. }
  assert (1%nat <> 0%nat) as Hne by discriminate.
  destruct (refresh_last_load_wins (P := Json.platform) 1 0 t1 t0 _ _ w
              Hne Hn1 Hn0 Hpc1 Hpc0 Hpend1 Hpend0)
    as (w' & Hrun' & Hurl & _).
  exists w, w'. split; [reflexivity|]. split; [exact Hrun'|exact Hurl].
Defined.

(** ** setLoaded *)

(** X11: [setLoaded] is idempotent, changes neither the URLs, the storage
    nor the trace, and its acknowledgement outlives the provider that made
    it: it sets the singleton flag, so a provider mounted afterwards starts
    with [isLoaded] true. *)
Theorem setLoaded_idempotent_and_shared (i : nat) (w : World) :
  setLoaded i (setLoaded i w) = setLoaded i w /\
  globalIsLoaded (setLoaded i w) = true /\
  globalBackgroundUrl (setLoaded i w) = globalBackgroundUrl w /\
  storage (setLoaded i w) = storage w /\
  trace (setLoaded i w) = trace w /\
  (isLoaded <$> providers (setLoaded i w) !! i) = (fun _ => true) <$> providers w !! i /\
  (isLoaded <$> providers (BackgroundProvider_mount (setLoaded i w))
                  !! length (providers w)) = Some true.
Proof.
  unfold setLoaded, setIsLoaded, BackgroundProvider_mount. simpl.
  split.
  { unfold set_providers, set_globalIsLoaded. simpl. f_equal.
    rewrite list_alter_alter_eq. by apply list_alter_ext. }
  do 4 (split; [done|]). split.
  - rewrite list_lookup_alter_eq. by destruct (providers w !! i).
  - rewrite lookup_app_r by (rewrite length_alter; lia).
    by rewrite length_alter, Nat.sub_diag.
Qed.

(** ** ImageProbe: after the first callback *)

(** X12: the first callback of a probe, whichever it is, disarms the timer:
    after any callback has run, the timeout callback can no longer run at
    any time (so a loaded image is never cleared by a late timeout), and a
    later [load] or [error] changes neither the promise nor the image
    source. *)
Theorem preloadImage_settles_once (url : jsval) (w : World)
    (es : list (Z * ImgEvent)) (p' : Probe) :
  es <> [] ->
  preloadImage_run es (preloadImage url w).1 = Some p' ->
  timer p' = None /\
  (forall now : Z, preloadImage_handler now OnTimeout p' = None) /\
  forall (now : Z) (e : ImgEvent) (p'' : Probe),
    preloadImage_handler now e p' = Some p'' ->
    promise p'' = promise p' /\ img_src p'' = img_src p' /\ timer p'' = None.
Proof.
  intros Hne Hrun.
  assert (timer p' = None /\ exists b, promise p' = Resolved b) as [Htimer [b Hres]].
  { destruct es as [|[now e] rest]; [by destruct Hne|].
    remember (preloadImage url w).1 as p0 eqn:Hp0. simpl in Hrun.
    destruct (preloadImage_handler now e p0) as [p1|] eqn:Hh;
      simpl in Hrun; [|done].
    assert (timer p1 = None /\ exists b, promise p1 = Resolved b) as [Ht1 [b Hb]].
    { subst p0. unfold preloadImage_handler in Hh. simpl in Hh.
      destruct e; repeat case_match; simplify_eq; simpl; split; eauto. }
    destruct (preloadImage_run_settled rest p1 p' b Ht1 Hb Hrun) as (? & _ & ?).
    eauto. }
  split; [done|]. split.
  - intros now. simpl. by rewrite Htimer.
  - intros now e p'' Hh. unfold preloadImage_handler in Hh.
    destruct e; simplify_eq; simpl; rewrite ?Hres; [done|done|].
    by rewrite Htimer in Hh.
Qed.

Lemma preloadImage_settles_once_witness :
  exists p' : Probe,
    preloadImage_run [(700, OnLoad)] (preloadImage (JStr "u") (World_init 5 ∅)).1
      = Some p' /\
    preloadImage_handler 10005 OnTimeout p' = None /\
    img_src p' = JStr "u".
Proof.
  eexists. split; [reflexivity|].
  assert ([(700, OnLoad)] <> []) as Hne by discriminate.
  destruct (preloadImage_settles_once (JStr "u") (World_init 5 ∅) [(700, OnLoad)] _
              Hne eq_refl) as (_ & Hnever & _).
  split; [apply Hnever|reflexivity].
Defined.

(** ** initBackground: no retry *)

Lemma image_loads_app (tr1 tr2 : list Effect) :
  image_loads (tr1 ++ tr2) = (image_loads tr1 + image_loads tr2)%nat.
Proof.
  induction tr1 as [|e tr1 IH]; simpl; [done|]. destruct e; simpl; lia.
Qed.

(** X13: whatever storage holds and however the network answers,
    [initBackground] ends after one or two image loads and at most one
    generated candidate: there is no retry beyond the single fallback.  A
    second load happens only together with a generated candidate. *)
Theorem initBackground_at_most_two_probes {P : Platform} (net : Network) (i : nat)
    (w : World) :
  exists (t : Task) (w' : World),
    initBackground_alone net i w = (t, w') /\
    is_Some (finalUrl t) /\
    (image_loads (trace w) + 1 <= image_loads (trace w'))%nat /\
    (image_loads (trace w') <= image_loads (trace w) + 2)%nat /\
    (fetches (trace w') <= fetches (trace w) + 1)%nat /\
    (image_loads (trace w') = image_loads (trace w) + 2 ->
     fetches (trace w') = fetches (trace w) + 1)%nat.
Proof.
  destruct (getCachedBackground w) as [cached w0] eqn:Hread.
  assert (image_loads (trace w0) = image_loads (trace w) /\
          fetches (trace w0) = fetches (trace w)) as (Hi & Hf).
  { destruct (getCachedBackground_state w) as [Hsame|[_ Hdel]];
      rewrite Hread in *; simpl in *; subst w0; [done|].
    simpl. rewrite image_loads_app, fetches_app. simpl. lia. }
  unfold initBackground_alone.
  destruct (truthy cached) eqn:Htruthy.
  - rewrite (initBackground_cached i w w0 cached Hread Htruthy).
    destruct (net (clock (log (EImageLoad cached) w0)) cached) as [e1 d1] eqn:Hnet1.
    rewrite (await_pending net _ _ e1 d1) by done.
    destruct (verdict e1).
    + unfold resume, initBackground_finish. simpl. rewrite Htruthy. simpl.
      do 2 eexists. split; [reflexivity|]. simpl.
      rewrite image_loads_app, fetches_app. simpl.
      split; [by eexists|]. lia.
    + unfold resume at 1. simpl pc. cbv iota.
      unfold initBackground_fallback, fetchNewBackground, preloadImage.
      match goal with
      | |- context [await net (?t, ?w1)] =>
          destruct (net (clock w1) (img_src (probe t))) as [e2 d2] eqn:Hnet2;
          rewrite (await_pending net t w1 e2 d2) by done
      end.
      unfold resume, initBackground_finish, setCachedBackground,
        localStorage_setItem, localStorage_removeItem.
      simpl. repeat case_match; simplify_eq; simpl;
        do 2 eexists; (split; [reflexivity|]); simpl;
        rewrite ?image_loads_app, ?fetches_app; simpl;
        (split; [by eexists|]); lia.
  - rewrite (initBackground_uncached i w w0 cached Hread Htruthy).
    unfold initBackground_fallback, fetchNewBackground, preloadImage.
    match goal with
    | |- context [await net (await net (?t, ?w1))] =>
        destruct (net (clock w1) (img_src (probe t))) as [e2 d2] eqn:Hnet2;
        rewrite (await_pending net t w1 e2 d2) by done
    end.
    unfold resume, initBackground_finish, setCachedBackground,
      localStorage_setItem.
    simpl. repeat case_match; simplify_eq; simpl;
      do 2 eexists; (split; [reflexivity|]); simpl;
      rewrite ?image_loads_app, ?fetches_app; simpl;
      (split; [by eexists|]); lia.
Qed.

(** X14: an expired cache record is never probed.  When the stored record
    is older than 24h, [initBackground] deletes it during the read and goes
    straight to the fallback: up to its first [await] it has removed the
    key, generated a candidate for the current time and started loading the
    candidate, and nothing else. *)
Theorem initBackground_expired_record {P : Platform} (i : nat) (w : World)
    (s : string) (data url : jsval) (timestamp : Z) :
  has_window w = true ->
  storage w !! BG_CACHE_KEY = Some s ->
  JSON_parse s = Some data ->
  get_prop data "timestamp" = Some (JNum timestamp) ->
  get_prop data "url" = Some url ->
  clock w - timestamp > BG_EXPIRE_TIME ->
  let newUrl := fetchNewBackground_url (clock w) in
  pc (initBackground i w).1 = AwaitNew newUrl /\
  img_src (probe (initBackground i w).1) = JStr newUrl /\
  storage (initBackground i w).2 = delete BG_CACHE_KEY (storage w) /\
  trace (initBackground i w).2
    = (trace w ++ [ERemoveItem BG_CACHE_KEY; EGenerated newUrl;
                   EImageLoad (JStr newUrl)])%list.
Proof.
  intros Hwin Hsto Hparse Hts Hurl Hage newUrl.
  assert (getCachedBackground w = (JNull, localStorage_removeItem BG_CACHE_KEY w))
    as Hread.
  { rewrite (getCachedBackground_record w s data url timestamp) by done.
    assert ((BG_EXPIRE_TIME <? clock w - timestamp) = true) as ->
      by (apply Z.ltb_lt; lia).
    done. }
  rewrite (initBackground_uncached i w _ JNull Hread eq_refl).
  unfold initBackground_fallback, fetchNewBackground, preloadImage. simpl.
  repeat split; try done. by rewrite <- !app_assoc.
Qed.

Lemma initBackground_expired_record_witness :
  let T := 1700000000000 in
  let s := Json.stringify (cache_record "https://loliapi.com/acg/?1" (T - 90000000)) in
  let w := World_init T {[BG_CACHE_KEY := s]} in
  trace (initBackground (P := Json.platform) 0 w).2
    = [ERemoveItem BG_CACHE_KEY;
       EGenerated (fetchNewBackground_url T);
       EImageLoad (JStr (fetchNewBackground_url T))].
Proof.
  intros T s w.
  assert (has_window w = true) as Hwin by (vm_compute; reflexivity).
  assert (storage w !! BG_CACHE_KEY = Some s) as Hsto by (vm_compute; reflexivity).
  assert (JSON_parse (Platform := Json.platform) s
          = Some (cache_record "https://loliapi.com/acg/?1" (T - 90000000)))
    as Hparse by (vm_compute; reflexivity).
  assert (get_prop (cache_record "https://loliapi.com/acg/?1" (T - 90000000)) "timestamp"
          = Some (JNum (T - 90000000))) as Hts by (vm_compute; reflexivity).
  assert (get_prop (cache_record "https://loliapi.com/acg/?1" (T - 90000000)) "url"
          = Some (JStr "https://loliapi.com/acg/?1")) as Hurl
    by (vm_compute; reflexivity).
  assert (clock w - (T - 90000000) > BG_EXPIRE_TIME) as Hage
    by (vm_compute; reflexivity).
  exact (proj2 (proj2 (proj2
           (initBackground_expired_record (P := Json.platform) 0 w s _ _ _
              Hwin Hsto Hparse Hts Hurl Hage)))).
Defined.

(** ** Who sees a resolved URL *)

(** X15: a resolved URL is published to the singleton and to the state of
    the provider whose closure ran, and to no other provider.  One callback
    of a task's probe either leaves the singleton and every provider as they
    were, or it is the [load] callback of a pending probe and the task's
    owner then shows exactly the new singleton URL; the state of every other
    mounted provider is untouched. *)
Theorem publish_only_to_owner {P : Platform} (n : nat) (e : ImgEvent) (t : Task)
    (w w' : World) :
  step (EvImage n e) w = Some w' ->
  tasks w !! n = Some t ->
  (globalBackgroundUrl w' = globalBackgroundUrl w /\
   globalIsLoaded w' = globalIsLoaded w /\
   providers w' = providers w) \/
  (e = OnLoad /\
   promise (probe t) = Pending /\
   (backgroundUrl <$> providers w' !! owner t)
     = (fun _ => globalBackgroundUrl w') <$> providers w !! owner t /\
   forall j : nat, j <> owner t -> providers w' !! j = providers w !! j).
Proof.
  intros Hstep Hn. simpl in Hstep. rewrite Hn in Hstep. simpl in Hstep.
  destruct (preloadImage_handler (clock w) e (probe t)) as [p'|] eqn:Hh;
    simpl in Hstep; [|done].
  destruct (promise (probe t)) eqn:Hpend;
    [|simplify_eq; by left|simplify_eq; by left].
  destruct (promise p') as [|isValid|] eqn:Hres;
    [simplify_eq; by left| |simplify_eq; by left].
  destruct isValid.
  - pose proof (preloadImage_handler_true _ _ _ _ Hh Hpend Hres) as ->.
    revert Hstep.
    unfold resume, initBackground_finish, initBackground_fallback,
      fetchNewBackground, preloadImage, setCachedBackground, localStorage_setItem,
      localStorage_removeItem, setIsLoaded, setBackgroundUrl.
    simpl. destruct (pc t) as [cached|u|u|f|v]; simpl;
      repeat case_match; simplify_eq; simpl; intros Hstep; simplify_eq; simpl;
      try (by left);
      right; (do 2 (split; [done|]));
      (split;
       [rewrite ?list_lookup_alter_eq; by destruct (providers w !! owner t)
       |intros j Hj; by rewrite ?list_lookup_alter_ne by done]).
  - revert Hstep.
    unfold resume, initBackground_finish, initBackground_fallback,
      fetchNewBackground, preloadImage, localStorage_removeItem.
    simpl. destruct (pc t); simpl; intros Hstep; simplify_eq; by left.
Qed.

Lemma publish_only_to_owner_witness :
  exists w w' : World,
    run (P := Json.platform) [EvMount; EvMount; EvEffect 0; EvTick 60]
      (World_init 1700000000000 ∅) = Some w /\
    step (P := Json.platform) (EvImage 0 OnLoad) w = Some w' /\
    (backgroundUrl <$> providers w' !! 0%nat) = Some (globalBackgroundUrl w') /\
    providers w' !! 1%nat = providers w !! 1%nat.
Proof.
  destruct (run (P := Json.platform) [EvMount; EvMount; EvEffect 0; EvTick 60]
              (World_init 1700000000000 ∅)) as [w|] eqn:Hrun;
    [|vm_compute in Hrun; discriminate].
  destruct (step (P := Json.platform) (EvImage 0 OnLoad) w) as [w'|] eqn:Hstep;
    [|vm_compute in Hrun; injection Hrun as <-; vm_compute in Hstep; discriminate].
  destruct (tasks w !! 0%nat) as [t|] eqn:Hn;
    [|vm_compute in Hrun; injection Hrun as <-; vm_compute in Hn; discriminate].
  assert (owner t = 0%nat /\ exists p, providers w !! 0%nat = Some p) as [Howner [p Hp]].
  { vm_compute in Hrun. injection Hrun as <-. vm_compute in Hn. injection Hn as <-.
    split; [reflexivity|]. eexists. vm_compute. reflexivity. }
  assert (globalBackgroundUrl w' <> globalBackgroundUrl w) as Hchanged.
  { vm_compute in Hrun. injection Hrun as <-. vm_compute in Hstep.
    injection Hstep as <-. vm_compute. discriminate. }
  exists w, w'. split; [reflexivity|]. split; [exact Hstep|].
  destruct (publish_only_to_owner (P := Json.platform) 0 OnLoad t w w' Hstep Hn)
    as [(Hsame & _)|(_ & _ & Hown & Hothers)]; [done|].
  rewrite Howner in Hown, Hothers. split.
  - rewrite Hown, Hp. reflexivity.
  - apply Hothers. discriminate.
Defined.
